(** * ai-drug-report: the report service of [app.py], embedded in Rocq

    The service is sequential glue: one HTTP lookup against the drug-label
    database, one templated prompt, one model call inside a bounded retry
    loop, repeated over a fixed catalog or run once for an ad-hoc name.

    Conventions of the embedding.
    - Python values that travel as JSON are terms of [json]; a dict is an
      association list in insertion order (its keys are distinct).  JSON
      numbers are modelled on the integers only.
    - A Python exception is a value of [exn]; code that may raise returns a
      [result].  The text of the messages the interpreter itself attaches to
      [AttributeError], [TypeError], [KeyError] and [IndexError] is
      abbreviated: it only
      ever reaches the body of a 500 response.
    - The two external collaborators ([requests.get] and
      [model.generate_content]) and [time.sleep] act on an abstract world;
      the calls made are also recorded in a trace.
    - Strings are byte strings; [lower]/[upper] map the ASCII letters.
    - Console output ([print]) is not modelled. *)

From Stdlib Require Import List String Ascii ZArith Bool Lia.
Import ListNotations.
Open Scope string_scope.

#[local] Set Warnings "-register-all".

(** ** Python values *)

Inductive json : Type :=
| JNull
| JBool (b : bool)
| JNum (n : Z)
| JStr (s : string)
| JArr (items : list json)
| JObj (fields : list (string * json)).

Inductive exn_class : Type :=
| AttributeError
| TypeError
| KeyError
| IndexError
| RequestException   (* requests.exceptions.RequestException and subclasses *)
| JSONDecodeError    (* json.JSONDecodeError, raised by json.loads *)
| ServiceError.      (* whatever the model client raises *)

Record exn : Type := Exn { exn_class_of : exn_class; exn_str : string }.

Inductive result (A : Type) : Type :=
| Ok (a : A)
| Raise (e : exn).
Arguments Ok {A} a.
Arguments Raise {A} e.

Definition rbind {A B} (r : result A) (k : A -> result B) : result B :=
  match r with
  | Ok a => k a
  | Raise e => Raise e
  end.

Declare Scope result_scope.
Delimit Scope result_scope with result.
Notation "'let?' x ':=' r 'in' k" := (rbind r (fun x => k))
  (at level 10, x name, r at level 100, k at level 200) : result_scope.

Module Py.

(** Truth value of an object ([if x], [not x], [x or y]). *)
Definition truthy (v : json) : bool :=
  match v with
  | JNull => false
  | JBool b => b
  | JNum n => negb (n =? 0)%Z
  | JStr s => negb (s =? "")
  | JArr l => match l with [] => false | _ => true end
  | JObj kv => match kv with [] => false | _ => true end
  end.

Fixpoint assoc (k : string) (kv : list (string * json)) : option json :=
  match kv with
  | [] => None
  | (k', v) :: rest => if k =? k' then Some v else assoc k rest
  end.

(** [d.get(k, default)]; [get d k JNull] is [d.get(k)]. *)
Definition get (d : json) (k : string) (default : json) : result json :=
  match d with
  | JObj kv => Ok (match assoc k kv with Some v => v | None => default end)
  | _ => Raise (Exn AttributeError "object has no attribute 'get'")
  end.

(** [sep.join(l)] on a list of [str]. *)
Fixpoint join_strs (sep : string) (l : list string) : string :=
  match l with
  | [] => ""
  | [s] => s
  | s :: rest => s ++ sep ++ join_strs sep rest
  end.

(** The items of a list when every one of them is a [str]. *)
Fixpoint strs_of (l : list json) : option (list string) :=
  match l with
  | [] => Some []
  | JStr s :: rest =>
      match strs_of rest with
      | Some ss => Some (s :: ss)
      | None => None
      end
  | _ :: _ => None
  end.

Fixpoint chars_of (s : string) : list string :=
  match s with
  | EmptyString => []
  | String c rest => String c EmptyString :: chars_of rest
  end.

(** [sep.join(x)] on an arbitrary object: a list is joined when all its
    items are [str], a [str] is joined character by character, a dict by
    its keys; anything else is a [TypeError]. *)
Definition join (sep : string) (x : json) : result string :=
  match x with
  | JArr l =>
      match strs_of l with
      | Some ss => Ok (join_strs sep ss)
      | None => Raise (Exn TypeError "sequence item: expected str instance")
      end
  | JStr s => Ok (join_strs sep (chars_of s))
  | JObj kv => Ok (join_strs sep (map fst kv))
  | _ => Raise (Exn TypeError "can only join an iterable")
  end.

Definition lower_ascii (c : ascii) : ascii :=
  let n := nat_of_ascii c in
  if (65 <=? n)%nat && (n <=? 90)%nat then ascii_of_nat (n + 32) else c.

Definition upper_ascii (c : ascii) : ascii :=
  let n := nat_of_ascii c in
  if (97 <=? n)%nat && (n <=? 122)%nat then ascii_of_nat (n - 32) else c.

Fixpoint map_chars (f : ascii -> ascii) (s : string) : string :=
  match s with
  | EmptyString => EmptyString
  | String c rest => String (f c) (map_chars f rest)
  end.

Definition lower : string -> string := map_chars lower_ascii.
Definition upper : string -> string := map_chars upper_ascii.

(** [sub in s] on two [str]. *)
Fixpoint contains (sub s : string) : bool :=
  if String.prefix sub s then true
  else match s with
       | EmptyString => false
       | String _ rest => contains sub rest
       end.

(** [a or b] on two [str]. *)
Definition or_str (a b : string) : string := if a =? "" then b else a.

(** [x[0]]. *)
Definition first_item (x : json) : result json :=
  match x with
  | JArr (v :: _) => Ok v
  | JStr (String c _) => Ok (JStr (String c EmptyString))
  | JArr [] | JStr EmptyString =>
      Raise (Exn IndexError "index out of range")
  | JObj _ => Raise (Exn KeyError "0")
  | _ => Raise (Exn TypeError "object is not subscriptable")
  end.

(** [x[k]] for a [str] key. *)
Definition subscript (x : json) (k : string) : result json :=
  match x with
  | JObj kv =>
      match assoc k kv with
      | Some v => Ok v
      | None => Raise (Exn KeyError k)
      end
  | JArr _ | JStr _ => Raise (Exn TypeError "indices must be integers")
  | _ => Raise (Exn TypeError "object is not subscriptable")
  end.

(** [k in x] for a [str] key. *)
Definition has (k : string) (x : json) : result bool :=
  match x with
  | JObj kv => Ok (match assoc k kv with Some _ => true | None => false end)
  | JArr l =>
      Ok (existsb (fun v => match v with JStr s => s =? k | _ => false end) l)
  | JStr s => Ok (contains k s)
  | _ => Raise (Exn TypeError "argument is not iterable")
  end.

End Py.

Definition nl : string := String (ascii_of_nat 10) EmptyString.

Definition dq : string := String (ascii_of_nat 34) EmptyString.

(** ** The Python runtime and the external services *)

(** Library functions of the interpreter that the service calls and that are
    not part of [app.py]. *)
Class Runtime : Type := {
  (** [str(v)] for a [v] that is not a [str] (how an f-string renders it) *)
  repr : json -> string;
  (** [json.loads]: the parsed value, or the message of the
      [JSONDecodeError] *)
  json_loads : string -> string + json
}.

Definition str `{Runtime} (v : json) : string :=
  match v with
  | JStr s => s
  | _ => repr v
  end.

Record http_response : Type := { status_code : Z; text : string }.

(** The collaborators.  Each call may depend on, and change, the state of
    the outside world.  A left result is the message of the exception the
    call raises: a [requests] exception for the lookup, and for the model
    whatever [generate_content] or the access to [response.text] raises. *)
Class Services (World : Type) : Type := {
  requests_get : string -> World -> (string + http_response) * World;
  generate_content : string -> World -> (string + string) * World;
  time_sleep : Z -> World -> World
}.

Inductive event : Type :=
| EvGet (url : string)
| EvGenerate (prompt : string)
| EvSleep (delay : Z).

Record St (World : Type) : Type := { world : World; trace : list event }.
Arguments world {World} s.
Arguments trace {World} s.

(** ** A state-and-exception monad for the handlers *)

Definition M (World A : Type) : Type := St World -> result A * St World.

Definition ret {W A} (a : A) : M W A := fun s => (Ok a, s).

Definition raise {W A} (e : exn) : M W A := fun s => (Raise e, s).

Definition bind {W A B} (m : M W A) (k : A -> M W B) : M W B :=
  fun s =>
    match m s with
    | (Ok a, s') => k a s'
    | (Raise e, s') => (Raise e, s')
    end.

(** [try: m  except Exception as e: h e] restricted to the classes [catches]
    accepts; the effects of [m] up to the exception stay. *)
Definition try_except {W A} (m : M W A) (catches : exn -> bool)
    (h : exn -> M W A) : M W A :=
  fun s =>
    match m s with
    | (Ok a, s') => (Ok a, s')
    | (Raise e, s') => if catches e then h e s' else (Raise e, s')
    end.

Definition lift {W A} (r : result A) : M W A := fun s => (r, s).

Declare Scope monad_scope.
Delimit Scope monad_scope with monad.
Notation "x <- m ;; k" := (bind m (fun x => k))
  (at level 61, m at next level, right associativity) : monad_scope.
Notation "m ;;; k" := (bind m (fun _ => k))
  (at level 61, right associativity) : monad_scope.
Open Scope monad_scope.
Open Scope result_scope.

Definition log {W} (e : event) (s : St W) : St W :=
  {| world := world s; trace := trace s ++ [e] |}.

Section Calls.
Context {World : Type} `{Services World}.

Definition http_get (url : string) : M World http_response :=
  fun s =>
    let '(r, w) := requests_get url (world s) in
    let s' := log (EvGet url) {| world := w; trace := trace s |} in
    match r with
    | inl msg => (Raise (Exn RequestException msg), s')
    | inr resp => (Ok resp, s')
    end.

Definition model_generate (prompt : string) : M World string :=
  fun s =>
    let '(r, w) := generate_content prompt (world s) in
    let s' := log (EvGenerate prompt) {| world := w; trace := trace s |} in
    match r with
    | inl msg => (Raise (Exn ServiceError msg), s')
    | inr txt => (Ok txt, s')
    end.

Definition sleep (delay : Z) : M World unit :=
  fun s =>
    (Ok tt, log (EvSleep delay)
              {| world := time_sleep delay (world s); trace := trace s |}).
End Calls.

(** ** The application *)

Record drug_def : Type := { class : string; name : string }.

Definition COMMON_BP_DRUGS : list drug_def :=
  [ {| class := "ACE Inhibitor"; name := "Lisinopril" |};
    {| class := "ARB"; name := "Losartan" |};
    {| class := "Calcium Channel Blocker"; name := "Amlodipine" |};
    {| class := "Beta-Blocker"; name := "Metoprolol" |};
    {| class := "Diuretic"; name := "Hydrochlorothiazide" |} ].

(** The dict [fetch_drug_data] returns: always these six keys, every value a
    [str]. *)
Record DrugRecord : Type := {
  brandName : string;
  genericName : string;
  contraindications : string;
  warnings_and_precautions : string;
  drugInteractions : string;
  adverseReactions : string
}.

Definition record_json (d : DrugRecord) : json :=
  JObj [ ("brandName", JStr (brandName d));
         ("genericName", JStr (genericName d));
         ("contraindications", JStr (contraindications d));
         ("warnings_and_precautions", JStr (warnings_and_precautions d));
         ("drugInteractions", JStr (drugInteractions d));
         ("adverseReactions", JStr (adverseReactions d)) ].

Definition no_information : string := "No information listed.".

(** The closure [get_section_text] of [fetch_drug_data], with the label
    record [drug] it captures as an argument. *)
Definition get_section_text (drug : json) (section_key : string)
  : result string :=
  let? section_data := Py.get drug section_key JNull in
  match section_data with
  | JArr (_ :: _) =>
      let? joined := Py.join " " section_data in
      Ok (Py.lower joined)
  | _ => Ok no_information
  end.

(** [fetch_drug_data] from [data = response.json()] on: the emptiness test
    and the construction of the returned dict, in evaluation order. *)
Definition drug_record_of (data : json) (drug_name : json)
  : result (option DrugRecord) :=
  let? error := Py.get data "error" JNull in
  let? absent :=
    if Py.truthy error then Ok true
    else let? results := Py.get data "results" JNull in
         Ok (negb (Py.truthy results)) in
  if (absent : bool) then Ok None
  else
    let? results := Py.subscript data "results" in
    let? drug := Py.first_item results in
    let? openfda := Py.get drug "openfda" (JObj []) in
    let? brand_names := Py.get openfda "brand_name" (JArr [JStr "N/A"]) in
    let? brand := Py.join ", " brand_names in
    let? openfda' := Py.get drug "openfda" (JObj []) in
    let? generic_names := Py.get openfda' "generic_name" (JArr [drug_name]) in
    let? generic := Py.join ", " generic_names in
    let? c := get_section_text drug "contraindications" in
    let? w := get_section_text drug "warnings_and_precautions" in
    let? i := get_section_text drug "drug_interactions" in
    let? a := get_section_text drug "adverse_reactions" in
    Ok (Some {| brandName := brand; genericName := generic;
                contraindications := c; warnings_and_precautions := w;
                drugInteractions := i; adverseReactions := a |}).

(** [drug_name.upper()]: only a [str] has the method. *)
Definition upper_of (drug_name : json) : result string :=
  match drug_name with
  | JStr s => Ok (Py.upper s)
  | _ => Raise (Exn AttributeError "object has no attribute 'upper'")
  end.

Definition search_url (upper_name : string) : string :=
  let search_field :=
    "(openfda.generic_name.exact:" ++ dq ++ upper_name ++ dq
    ++ " OR openfda.brand_name.exact:" ++ dq ++ upper_name ++ dq ++ ")" in
  "https://api.fda.gov/drug/label.json?search=" ++ search_field ++ "&limit=1".

(** [response.raise_for_status()]: an [HTTPError] for a 4xx or 5xx status. *)
Definition raise_for_status (r : http_response) : result unit :=
  if ((400 <=? status_code r) && (status_code r <? 600))%Z
  then Raise (Exn RequestException "HTTP error")
  else Ok tt.

(** [response.json()]: [requests] raises its own [JSONDecodeError], a
    [RequestException], when the body is not JSON. *)
Definition response_json `{Runtime} (r : http_response) : result json :=
  match json_loads (text r) with
  | inl msg => Raise (Exn RequestException msg)
  | inr v => Ok v
  end.

Definition is_class (c : exn_class) (e : exn) : bool :=
  match c, exn_class_of e with
  | AttributeError, AttributeError | TypeError, TypeError
  | KeyError, KeyError | IndexError, IndexError
  | RequestException, RequestException
  | JSONDecodeError, JSONDecodeError | ServiceError, ServiceError => true
  | _, _ => false
  end.

(** [except Exception]. *)
Definition any_exception (e : exn) : bool := true.

Definition user_prompt (patient_profile_text : string) (drug_data : DrugRecord)
  : string :=
  nl ++ "    PATIENT PROFILE:" ++ nl
  ++ "    " ++ patient_profile_text ++ nl
  ++ nl
  ++ "    DRUG DATA FOR: " ++ genericName drug_data ++ nl
  ++ "    ---" ++ nl
  ++ "    CONTRAINDICATIONS:" ++ nl
  ++ "    " ++ contraindications drug_data ++ nl
  ++ "    ---" ++ nl
  ++ "    WARNINGS AND PRECAUTIONS:" ++ nl
  ++ "    " ++ warnings_and_precautions drug_data ++ nl
  ++ "    ---" ++ nl
  ++ "    DRUG INTERACTIONS:" ++ nl
  ++ "    " ++ drugInteractions drug_data ++ nl
  ++ "    ---" ++ nl
  ++ "    ADVERSE REACTIONS:" ++ nl
  ++ "    " ++ adverseReactions drug_data ++ nl
  ++ "    ---" ++ nl
  ++ "    ANALYZE and return all conflicts. If no conflicts are found, return a single "
  ++ dq ++ "INFO" ++ dq ++ " alert." ++ nl
  ++ "    ".

Definition ERROR : string := "🔴 ERROR".

Definition alert (type finding : string) : json :=
  JObj [("type", JStr type); ("finding", JStr finding)].

Definition max_retries : nat := 3.

Definition retryable (e : exn) : bool :=
  Py.contains "429" (exn_str e) || Py.contains "503" (exn_str e).

Definition get_profile_text `{Runtime} (profile : json) : result string :=
  let? vitals := Py.get profile "vitals" (JStr "N/A") in
  let? notes := Py.get profile "notes" (JStr "N/A") in
  let? allergies := Py.get profile "allergies" (JArr []) in
  let? allergies_text := Py.join ", " allergies in
  let? meds := Py.get profile "meds" (JArr []) in
  let? meds_text := Py.join ", " meds in
  Ok (nl
      ++ "    - Vitals: " ++ str vitals ++ nl
      ++ "    - Notes/History: " ++ str notes ++ nl
      ++ "    - Allergies: "
      ++ Py.or_str allergies_text "N/A" ++ nl
      ++ "    - Other Medications: "
      ++ Py.or_str meds_text "N/A" ++ nl
      ++ "    ").

Section App.
Context `{Runtime} {World : Type} `{Services World}.

Definition fetch_drug_data (drug_name : json) : M World (option DrugRecord) :=
  upper_name <- lift (upper_of drug_name) ;;
  let url := search_url upper_name in
  try_except
    (response <- http_get url ;;
     lift (raise_for_status response) ;;;
     data <- lift (response_json response) ;;
     lift (drug_record_of data drug_name))
    (is_class RequestException)
    (fun _ => ret None).

(** One pass through the body of the [try] of [analyze_with_llm]. *)
Definition attempt (user_prompt : string) : M World json :=
  response_text <- model_generate user_prompt ;;
  match json_loads response_text with
  | inl msg => raise (Exn JSONDecodeError msg)
  | inr alerts => ret alerts
  end.

(** The [for attempt in range(max_retries)] loop, [remaining] iterations
    from its end, with the current value of [delay]. *)
Fixpoint retry_loop (remaining : nat) (delay : Z) (user_prompt : string)
  : M World json :=
  match remaining with
  | O =>
      ret (JArr [alert ERROR "Could not analyze drug after multiple retries."])
  | S remaining' =>
      try_except (attempt user_prompt) any_exception
        (fun e =>
           if retryable e then
             sleep delay ;;;
             retry_loop remaining' (delay * 2) user_prompt
           else
             ret (JArr [alert ERROR ("Could not analyze drug: " ++ exn_str e)]))
  end.

Definition analyze_with_llm (patient_profile_text : string)
    (drug_data : DrugRecord) : M World json :=
  retry_loop max_retries 1 (user_prompt patient_profile_text drug_data).

Definition report (genericName brandName drugClass alerts fullData : json)
  : json :=
  JObj [ ("genericName", genericName); ("brandName", brandName);
         ("drugClass", drugClass); ("alerts", alerts);
         ("fullData", fullData) ].

(** The body of the loop of [generate_report] for one catalog entry. *)
Definition batch_report (profile_text : string) (d : drug_def) : M World json :=
  let drug_name := name d in
  drug_data <- fetch_drug_data (JStr drug_name) ;;
  match drug_data with
  | None =>
      ret (report (JStr drug_name) (JStr "N/A") (JStr (class d))
             (JArr [alert ERROR "Could not fetch drug data from openFDA."])
             (JObj []))
  | Some drug_data =>
      alerts <- analyze_with_llm profile_text drug_data ;;
      ret (report (JStr (genericName drug_data)) (JStr (brandName drug_data))
             (JStr (class d)) alerts (record_json drug_data))
  end.

(** [for drug_def in drugs: ... all_reports.append(report)]. *)
Fixpoint report_loop (profile_text : string) (drugs : list drug_def)
    (all_reports : list json) : M World (list json) :=
  match drugs with
  | [] => ret all_reports
  | d :: rest =>
      r <- batch_report profile_text d ;;
      report_loop profile_text rest (all_reports ++ [r])
  end.

(** What a handler hands back to Flask: [jsonify(body), status]. *)
Definition response : Type := (Z * json)%type.

Definition error_body (msg : string) : json := JObj [("error", JStr msg)].

(** The outer [try ... except Exception as e] of both handlers. *)
Definition handler (m : M World response) (s : St World)
  : response * St World :=
  match m s with
  | (Ok r, s') => (r, s')
  | (Raise e, s') => ((500%Z, error_body (exn_str e)), s')
  end.

(** [POST /generate-report]; [body] is [request.json]. *)
Definition generate_report (body : json) : St World -> response * St World :=
  handler
    (let profile := body in
     if negb (Py.truthy profile) then
       ret (400%Z, error_body "No patient profile provided")
     else
       profile_text <- lift (get_profile_text profile) ;;
       all_reports <- report_loop profile_text COMMON_BP_DRUGS [] ;;
       ret (200%Z, JArr all_reports)).

(** [POST /check-drug]. *)
Definition check_single_drug (body : json) : St World -> response * St World :=
  handler
    (let data := body in
     missing <- lift
       (if negb (Py.truthy data) then Ok true
        else let? has_profile := Py.has "profile" data in
             if negb has_profile then Ok true
             else let? has_name := Py.has "drugName" data in
                  Ok (negb has_name)) ;;
     if (missing : bool) then
       ret (400%Z, error_body "Missing profile or drugName")
     else
       profile <- lift (Py.subscript data "profile") ;;
       drug_name <- lift (Py.subscript data "drugName") ;;
       profile_text <- lift (get_profile_text profile) ;;
       drug_data <- fetch_drug_data drug_name ;;
       match drug_data with
       | None =>
           ret (200%Z,
                report drug_name (JStr "N/A") (JStr "Custom Search")
                  (JArr [alert ERROR
                           ("Could not fetch drug data for '" ++ str drug_name
                            ++ "'. Check spelling.")])
                  (JObj []))
       | Some drug_data =>
           alerts <- analyze_with_llm profile_text drug_data ;;
           ret (200%Z,
                report (JStr (genericName drug_data))
                  (JStr (brandName drug_data)) (JStr "Custom Search")
                  alerts (record_json drug_data))
       end).
End App.

(** ** Stubs of the runtime and of the services, for running the handlers *)

Module Stub.

Fixpoint lookup {A} (k : string) (table : list (string * A)) : option A :=
  match table with
  | [] => None
  | (k', v) :: rest => if k =? k' then Some v else lookup k rest
  end.

(** A [json.loads] that knows the documents of [docs] and rejects every
    other text. *)
Definition runtime (docs : list (string * json)) : Runtime :=
  {| repr := fun v =>
       match v with
       | JNull => "None"
       | JBool true => "True"
       | JBool false => "False"
       | _ => "<object>"
       end;
     json_loads := fun t =>
       match lookup t docs with
       | Some v => inr v
       | None => inl "Expecting value: line 1 column 1 (char 0)"
       end |}.

(** The lookup answers by URL from a fixed table (a URL that is not listed
    times out); the model plays a script, one reply per call, and then
    keeps failing with a quota error. *)
Definition scripted (pages : list (string * http_response))
  : Services (list (string + string)) :=
  {| requests_get := fun url w =>
       (match lookup url pages with
        | Some r => inr r
        | None => inl "Read timed out."
        end, w);
     generate_content := fun _ w =>
       match w with
       | [] => (inl "429 Resource has been exhausted", [])
       | r :: rest => (r, rest)
       end;
     time_sleep := fun _ w => w |}.

(** Both services answer as functions of the request alone; the world
    counts the calls made. *)
Definition stateless (pages : string -> string + http_response)
    (reply : string -> string + string) : Services nat :=
  {| requests_get := fun url w => (pages url, S w);
     generate_content := fun prompt w => (reply prompt, S w);
     time_sleep := fun _ w => w |}.

Definition start {W} (w : W) : St W := {| world := w; trace := [] |}.

Definition lisinopril_url : string := search_url "LISINOPRIL".

Definition q (s : string) : string := dq ++ s ++ dq.

Definition lisinopril_body : string :=
  "{" ++ q "results" ++ ": [{" ++ q "openfda" ++ ": {" ++ q "generic_name"
  ++ ": [" ++ q "LISINOPRIL" ++ "]}, " ++ q "contraindications" ++ ": ["
  ++ q "Do NOT use with Aliskiren." ++ ", " ++ q "History of angioedema."
  ++ "], " ++ q "adverse_reactions" ++ ": []}]}".

Definition lisinopril_label : json :=
  JObj [("openfda", JObj [("generic_name", JArr [JStr "LISINOPRIL"])]);
        ("contraindications",
         JArr [JStr "Do NOT use with Aliskiren.";
               JStr "History of angioedema."]);
        ("adverse_reactions", JArr [])].

Definition lisinopril_data : json :=
  JObj [("results", JArr [lisinopril_label])].

Definition info_text : string :=
  "[{" ++ q "type" ++ ": " ++ q "🟢 INFO" ++ ", " ++ q "finding" ++ ": "
  ++ q "No conflicts found." ++ "}]".

Definition info_alerts : json :=
  JArr [alert "🟢 INFO" "No conflicts found."].

Definition docs : list (string * json) :=
  [ (lisinopril_body, lisinopril_data);
    (info_text, info_alerts);
    ("[]", JArr []) ].

Definition pages : list (string * http_response) :=
  [ (lisinopril_url, {| status_code := 200; text := lisinopril_body |}) ].

Definition profile : json :=
  JObj [("vitals", JStr "BP 150/95"); ("notes", JStr "");
        ("allergies", JArr [JStr "penicillin"]); ("meds", JArr [])].

(** The runtime and three worlds built from the tables above: a lookup
    that is down, one that knows Lisinopril, and a pair of services that
    answer every request the same way. *)
Definition R : Runtime := runtime docs.
Definition offline : Services (list (string + string)) := scripted [].
Definition online : Services (list (string + string)) := scripted pages.
Definition steady : Services nat :=
  stateless
    (fun url => match lookup url pages with
                | Some r => inr r
                | None => inl "Read timed out."
                end)
    (fun _ => inr info_text).

Definition request (drug_name : string) : json :=
  JObj [("profile", profile); ("drugName", JStr drug_name)].

(** A lookup that knows Lisinopril and answers for Losartan with a reply
    of an unexpected shape (its first result is a number, not a label). *)
Definition losartan_url : string := search_url "LOSARTAN".

Definition broken_body : string := "{" ++ q "results" ++ ": [5]}".

Definition broken_data : json := JObj [("results", JArr [JNum 5])].

Definition Rb : Runtime := runtime ((broken_body, broken_data) :: docs).

Definition broken : Services (list (string + string)) :=
  scripted ((losartan_url, {| status_code := 200; text := broken_body |})
              :: pages).

(** A lookup that answers 503 for Lisinopril, and one that answers 200 with
    a page that is not JSON. *)
Definition unavailable : Services (list (string + string)) :=
  scripted [(lisinopril_url,
             {| status_code := 503; text := "Service Unavailable" |})].

Definition garbled : Services (list (string + string)) :=
  scripted [(lisinopril_url,
             {| status_code := 200; text := "<html>Bad gateway</html>" |})].

(** A label with two brand names. *)
Definition two_brands_data : json :=
  JObj [("results",
         JArr [JObj [("openfda",
                      JObj [("brand_name",
                             JArr [JStr "Prinivil"; JStr "Zestril"])])]])].

End Stub.

(** ** Vocabulary of the statements *)

(** A value that is a list whose items are all [str]. *)
Definition str_list (v : json) : bool :=
  match v with
  | JArr l => match Py.strs_of l with Some _ => true | None => false end
  | _ => false
  end.

Definition absent_or (P : json -> bool) (o : option json) : bool :=
  match o with
  | None => true
  | Some v => P v
  end.

(** A patient profile of the data model: a JSON object whose [allergies]
    and [meds], when present, are sequences of strings.  [vitals] and
    [notes] are free. *)
Definition is_profile (p : json) : bool :=
  match p with
  | JObj kv =>
      absent_or str_list (Py.assoc "allergies" kv)
      && absent_or str_list (Py.assoc "meds" kv)
  | _ => false
  end.

(** The four labelled lines of the profile text, after the spec: vitals,
    notes, allergies, other medications. *)
Definition profile_lines (vitals notes allergies meds : string) : list string :=
  [ "    - Vitals: " ++ vitals;
    "    - Notes/History: " ++ notes;
    "    - Allergies: " ++ allergies;
    "    - Other Medications: " ++ meds ].

(** A block of lines as the template lays it out: a line break before each
    line, and a final line break followed by the indentation of the closing
    quotes. *)
Fixpoint block (lines : list string) : string :=
  match lines with
  | [] => nl ++ "    "
  | l :: rest => nl ++ l ++ block rest
  end.

(** The four label sections a record carries, by their key in the label. *)
Definition section_keys : list string :=
  [ "contraindications"; "warnings_and_precautions";
    "drug_interactions"; "adverse_reactions" ].


Definition nonempty_list (v : json) : bool :=
  match v with
  | JArr (_ :: _) => true
  | _ => false
  end.

(** A section of a label: a list of it must hold strings only. *)
Definition wf_section (v : json) : bool :=
  match v with
  | JArr l => str_list v
  | _ => true
  end.

Definition wf_names (v : json) : bool :=
  match v with
  | JObj names =>
      absent_or str_list (Py.assoc "brand_name" names)
      && absent_or str_list (Py.assoc "generic_name" names)
  | _ => false
  end.

(** A label record as the lookup service documents it. *)
Definition wf_label (drug : json) : bool :=
  match drug with
  | JObj kv =>
      absent_or wf_names (Py.assoc "openfda" kv)
      && forallb (fun key => absent_or wf_section (Py.assoc key kv)) section_keys
  | _ => false
  end.

(** A reply of the lookup service: an object that reports an error, or has
    no results, or whose results start with a well-formed label record. *)
Definition wf_label_data (data : json) : bool :=
  match data with
  | JObj kv =>
      if absent_or (fun e => negb (Py.truthy e)) (Py.assoc "error" kv) then
        match Py.assoc "results" kv with
        | None => true
        | Some results =>
            if Py.truthy results then
              match results with
              | JArr (drug :: _) => wf_label drug
              | _ => false
              end
            else true
        end
      else true
  | _ => false
  end.

Definition is_generate (e : event) : bool :=
  match e with EvGenerate _ => true | _ => false end.

Fixpoint sleeps (evs : list event) : list Z :=
  match evs with
  | [] => []
  | EvSleep d :: rest => d :: sleeps rest
  | _ :: rest => sleeps rest
  end.

(** The two alert lists the analyzer synthesizes. *)
Definition exhausted : json :=
  JArr [alert ERROR "Could not analyze drug after multiple retries."].

Definition terminal (e : exn) : json :=
  JArr [alert ERROR ("Could not analyze drug: " ++ exn_str e)].

(** The URLs of the lookups in a trace, in order. *)
Fixpoint gets (evs : list event) : list string :=
  match evs with
  | [] => []
  | EvGet url :: rest => url :: gets rest
  | _ :: rest => gets rest
  end.

(** The time slept in a trace. *)
Definition total_sleep (evs : list event) : Z :=
  fold_right Z.add 0%Z (sleeps evs).

(** The lookup URL of every catalog entry, in catalog order. *)
Definition catalog_urls : list string :=
  map (fun d => search_url (Py.upper (name d))) COMMON_BP_DRUGS.

(** A result that is not a [RequestException]: the one class the fetcher
    catches. *)
Definition benign {A} (r : result A) : Prop :=
  match r with
  | Ok _ => True
  | Raise e => is_class RequestException e = false
  end.

(** A computation whose result does not depend on the state it starts in. *)
Definition stable {W A} (m : M W A) : Prop :=
  forall s1 s2, fst (m s1) = fst (m s2).

Section Vocabulary.
Context `{Runtime} {World : Type} `{Services World}.

(** The lookup service cannot resolve [drug_name]: whatever the state of
    the world, the fetch comes back absent. *)
Definition unresolved (drug_name : json) : Prop :=
  forall s, fst (fetch_drug_data drug_name s) = Ok None.

(** Every reply of the lookup service that passes the status check and
    parses carries well-formed label data. *)
Definition lookup_well_formed : Prop :=
  forall url w resp data,
    fst (requests_get url w) = inr resp ->
    raise_for_status resp = Ok tt ->
    json_loads (text resp) = inr data ->
    wf_label_data data = true.

(** Whatever the model returns that parses, parses to a non-empty list. *)
Definition model_lists_alerts : Prop :=
  forall prompt w txt v,
    fst (generate_content prompt w) = inr txt ->
    json_loads txt = inr v ->
    nonempty_list v = true.

(** The services are deterministic functions of the request. *)
Definition deterministic : Prop :=
  (exists pages, forall url w, fst (requests_get url w) = pages url)
  /\ (exists reply, forall prompt w, fst (generate_content prompt w) = reply prompt).

(** [retried p k d s s']: from [s], [k] attempts in a row fail with a
    retryable error, each followed by its sleep, the first of [d] and each
    next one twice as long; [s'] is the state after the last sleep. *)
Inductive retried (p : string) : nat -> Z -> St World -> St World -> Prop :=
| retried_none d s : retried p 0 d s s
| retried_more k d s e s1 s2 s' :
    attempt p s = (Raise e, s1) ->
    retryable e = true ->
    sleep d s1 = (Ok tt, s2) ->
    retried p k (d * 2) s2 s' ->
    retried p (S k) d s s'.

(** What the body of the [try] computes from the response. *)
Definition read_label (resp : http_response) (drug_name : json)
  : result (option DrugRecord) :=
  let? _ := raise_for_status resp in
  let? data := response_json resp in
  drug_record_of data drug_name.

(** The report of one drug, from the outcome of its fetch. *)
Definition assembled (profile_text : string) (generic : json)
    (drug_class failure : string) (fetched : option DrugRecord)
    (s1 s' : St World) (r : json) : Prop :=
  match fetched with
  | None =>
      s' = s1
      /\ r = report generic (JStr "N/A") (JStr drug_class)
               (JArr [alert ERROR failure]) (JObj [])
  | Some rec =>
      exists alerts,
        analyze_with_llm profile_text rec s1 = (Ok alerts, s')
        /\ r = report (JStr (genericName rec)) (JStr (brandName rec))
                 (JStr drug_class) alerts (record_json rec)
  end.


(** [r] is a report the loop body produces for the entry [d]. *)
Definition reported (profile_text : string) (d : drug_def) (r : json) : Prop :=
  exists s s', batch_report profile_text d s = (Ok r, s').

(** The finding of the single-drug handler when the fetch is absent. *)
Definition not_found (drug_name : json) : string :=
  "Could not fetch drug data for '" ++ str drug_name ++ "'. Check spelling.".

(** The events of [k] failed attempts with their backoff, from delay [d]. *)
Fixpoint backoff (p : string) (k : nat) (d : Z) : list event :=
  match k with
  | O => []
  | S k' => EvGenerate p :: EvSleep d :: backoff p k' (d * 2)
  end.
End Vocabulary.

(** Inverts a chain of [let?] that is known to return. *)
Ltac invert_rbind :=
  repeat match goal with
    | E : rbind ?r _ = Ok _ |- _ =>
        let x := fresh "x" in
        let Ex := fresh "E" x in
        destruct r as [x|] eqn:Ex; cbn [rbind] in E; [|discriminate E]
    end.

(** * Properties *)

(** ** Strings *)

Lemma str_app_assoc (a b c : string) : (a ++ b) ++ c = a ++ (b ++ c).
Proof.
  induction a as [|ch a IH]; simpl; [reflexivity | now rewrite IH].
Qed.

Lemma prefix_app (t b : string) : String.prefix t (t ++ b) = true.
Proof.
  induction t as [|ch t IH]; simpl.
  - now destruct b.
  - destruct (Ascii.ascii_dec ch ch) as [_|n]; [exact IH | now elim n].
Qed.

Lemma contains_skip (t a s : string) :
  Py.contains t s = true -> Py.contains t (a ++ s) = true.
Proof.
  intros Hs. induction a as [|ch a IH]; simpl; [exact Hs|].
  destruct t as [|ct t]; [reflexivity|].
  destruct (Ascii.ascii_dec ct ch); [destruct (String.prefix t (a ++ s))|];
    auto.
Qed.

Lemma contains_here (t b : string) : Py.contains t (t ++ b) = true.
Proof.
  destruct t as [|c t]; simpl; [now destruct b|].
  destruct (Ascii.ascii_dec c c) as [_|n]; [|now elim n].
  now rewrite prefix_app.
Qed.

Lemma contains_mid (t a b : string) : Py.contains t (a ++ t ++ b) = true.
Proof. apply contains_skip, contains_here. Qed.

(** ** The profile formatter *)

Section Formatter.
Context `{Runtime}.

Lemma join_str_list (sep : string) (v : json) :
  str_list v = true ->
  exists ss, v = JArr (map JStr ss) /\ Py.join sep v = Ok (Py.join_strs sep ss).
Proof.
  destruct v as [| | | |l|]; try discriminate. simpl.
  assert (G : forall ss, Py.strs_of l = Some ss -> l = map JStr ss).
  { induction l as [|x l IH]; simpl; intros ss E.
    - now injection E as <-.
    - destruct x; try discriminate.
      destruct (Py.strs_of l) as [ss'|]; [|discriminate].
      injection E as <-. simpl. now rewrite (IH ss'). }
  destruct (Py.strs_of l) as [ss|] eqn:E; [|discriminate].
  intros _. exists ss. now rewrite (G ss).
Qed.

(** How a list field renders: absent or empty gives the default. *)
Lemma list_field_text (kv : list (string * json)) (key : string) :
  absent_or str_list (Py.assoc key kv) = true ->
  exists t,
    (let? l := Py.get (JObj kv) key (JArr []) in Py.join ", " l) = Ok t
    /\ (Py.get (JObj kv) key (JArr []) = Ok (JArr []) ->
        Py.or_str t "N/A" = "N/A").
Proof.
  simpl. destruct (Py.assoc key kv) as [v|]; simpl.
  - intros Hv. destruct (join_str_list ", " v Hv) as (ss & -> & E).
    exists (Py.join_strs ", " ss). split; [exact E|].
    intros E'. injection E' as E'. now destruct ss.
  - intros _. exists "". now split.
Qed.

Lemma get_profile_text_spec (kv : list (string * json)) :
  is_profile (JObj kv) = true ->
  exists allergies meds,
    get_profile_text (JObj kv)
    = Ok (block (profile_lines
                   (match Py.assoc "vitals" kv with
                    | Some v => str v | None => "N/A" end)
                   (match Py.assoc "notes" kv with
                    | Some v => str v | None => "N/A" end)
                   allergies meds))
    /\ (Py.get (JObj kv) "allergies" (JArr []) = Ok (JArr []) ->
        allergies = "N/A")
    /\ (Py.get (JObj kv) "meds" (JArr []) = Ok (JArr []) -> meds = "N/A").
Proof.
  intros Hp. apply andb_prop in Hp as [Ha Hm].
  destruct (list_field_text kv "allergies" Ha) as (a & Ea & Na).
  destruct (list_field_text kv "meds" Hm) as (m & Em & Nm).
  exists (Py.or_str a "N/A"), (Py.or_str m "N/A").
  split; [|split; assumption].
  unfold get_profile_text. cbn [Py.get rbind] in *.
  rewrite Ea. cbn [rbind]. rewrite Em. cbn [rbind].
  f_equal. unfold profile_lines, block. rewrite !str_app_assoc.
  now destruct (Py.assoc "vitals" kv), (Py.assoc "notes" kv).
Qed.

(** C8.  On every patient profile, fields missing or not, the formatter
    returns (it does not raise) the block of the four labelled lines, and
    an allergies or meds list that is absent or empty renders as N/A. *)
Theorem get_profile_text_total (profile : json) :
  is_profile profile = true ->
  exists vitals notes allergies meds,
    get_profile_text profile
    = Ok (block (profile_lines vitals notes allergies meds))
    /\ (Py.get profile "allergies" (JArr []) = Ok (JArr []) ->
        allergies = "N/A")
    /\ (Py.get profile "meds" (JArr []) = Ok (JArr []) -> meds = "N/A").
Proof.
  destruct profile as [| | | | |kv]; try discriminate.
  intros Hp. destruct (get_profile_text_spec kv Hp) as (a & m & E & Ha & Hm).
  eauto 8.
Qed.

(** C10.  A vitals or notes entry that is present renders as its own text,
    so the empty string renders as an empty field and N/A appears for
    these two only when the key is absent (or is the text of the entry
    itself); allergies and meds render N/A both when absent and when the
    list is empty. *)
Theorem profile_text_empty_or_absent (kv : list (string * json)) :
  is_profile (JObj kv) = true ->
  exists vitals notes allergies meds,
    get_profile_text (JObj kv)
    = Ok (block (profile_lines vitals notes allergies meds))
    /\ (Py.assoc "vitals" kv = Some (JStr "") -> vitals = "")
    /\ (Py.assoc "notes" kv = Some (JStr "") -> notes = "")
    /\ (Py.assoc "vitals" kv = None -> vitals = "N/A")
    /\ (Py.assoc "notes" kv = None -> notes = "N/A")
    /\ (vitals = "N/A" ->
        Py.assoc "vitals" kv = None
        \/ exists v, Py.assoc "vitals" kv = Some v /\ str v = "N/A")
    /\ (notes = "N/A" ->
        Py.assoc "notes" kv = None
        \/ exists v, Py.assoc "notes" kv = Some v /\ str v = "N/A")
    /\ (Py.assoc "allergies" kv = None
        \/ Py.assoc "allergies" kv = Some (JArr []) -> allergies = "N/A")
    /\ (Py.assoc "meds" kv = None
        \/ Py.assoc "meds" kv = Some (JArr []) -> meds = "N/A").
Proof.
  intros Hp. destruct (get_profile_text_spec kv Hp) as (a & m & E & Ha & Hm).
  eexists _, _, a, m. split; [exact E|].
  cbn [Py.get] in Ha, Hm.
  repeat split.
  - now intros ->.
  - now intros ->.
  - now intros ->.
  - now intros ->.
  - destruct (Py.assoc "vitals" kv) as [v|]; eauto.
  - destruct (Py.assoc "notes" kv) as [v|]; eauto.
  - intros [E'|E']; apply Ha; now rewrite E'.
  - intros [E'|E']; apply Hm; now rewrite E'.
Qed.
End Formatter.

Lemma get_profile_text_total_witness :
  exists vitals notes allergies meds,
    @get_profile_text (Stub.runtime []) (JObj [])
    = Ok (block (profile_lines vitals notes allergies meds))
    /\ (Py.get (JObj []) "allergies" (JArr []) = Ok (JArr []) ->
        allergies = "N/A")
    /\ (Py.get (JObj []) "meds" (JArr []) = Ok (JArr []) -> meds = "N/A").
Proof.
  apply (@get_profile_text_total (Stub.runtime []) (JObj [])). reflexivity.
Defined.

Lemma profile_text_empty_or_absent_witness :
  exists vitals notes allergies meds,
    @get_profile_text (Stub.runtime []) (JObj [("vitals", JStr ""); ("meds", JArr [])])
    = Ok (block (profile_lines vitals notes allergies meds))
    /\ vitals = "" /\ notes = "N/A" /\ allergies = "N/A" /\ meds = "N/A".
Proof.
  destruct (@profile_text_empty_or_absent (Stub.runtime [])
              [("vitals", JStr ""); ("meds", JArr [])] eq_refl)
    as (v & n & a & m & E & Hv & _ & _ & Hn & _ & _ & Ha & Hm).
  exists v, n, a, m. split; [exact E|].
  repeat split.
  - apply Hv. reflexivity.
  - apply Hn. reflexivity.
  - apply Ha. left. reflexivity.
  - apply Hm. right. reflexivity.
Defined.

Example profile_text_example :
  @get_profile_text (Stub.runtime []) Stub.profile
  = Ok (block (profile_lines "BP 150/95" "" "penicillin" "N/A")).
Proof. reflexivity. Qed.

(** ** The label record *)

Lemma strs_of_map (l : list string) : Py.strs_of (map JStr l) = Some l.
Proof. induction l as [|s l IH]; simpl; [|rewrite IH]; reflexivity. Qed.

Lemma drug_record_of_some (data drug_name : json) (rec : DrugRecord) :
  drug_record_of data drug_name = Ok (Some rec) ->
  exists results drug openfda brand_names generic_names,
    Py.subscript data "results" = Ok results
    /\ Py.first_item results = Ok drug
    /\ Py.get drug "openfda" (JObj []) = Ok openfda
    /\ Py.get openfda "brand_name" (JArr [JStr "N/A"]) = Ok brand_names
    /\ Py.join ", " brand_names = Ok (brandName rec)
    /\ Py.get openfda "generic_name" (JArr [drug_name]) = Ok generic_names
    /\ Py.join ", " generic_names = Ok (genericName rec)
    /\ get_section_text drug "contraindications" = Ok (contraindications rec)
    /\ get_section_text drug "warnings_and_precautions"
       = Ok (warnings_and_precautions rec)
    /\ get_section_text drug "drug_interactions" = Ok (drugInteractions rec)
    /\ get_section_text drug "adverse_reactions" = Ok (adverseReactions rec).
Proof.
  unfold drug_record_of. intros E. invert_rbind.
  destruct x0; [discriminate|]. invert_rbind.
  injection E as <-. cbn [brandName genericName contraindications
    warnings_and_precautions drugInteractions adverseReactions].
  do 5 eexists. repeat split; first [eassumption | reflexivity].
Qed.

Lemma section_text_list (kv : list (string * json)) (key : string)
    (l : list string) :
  l <> [] ->
  Py.assoc key kv = Some (JArr (map JStr l)) ->
  get_section_text (JObj kv) key = Ok (Py.lower (Py.join_strs " " l)).
Proof.
  intros Hl E. unfold get_section_text. cbn [Py.get rbind]. rewrite E.
  destruct l as [|s l]; [now elim Hl|].
  cbn [map]. unfold Py.join. change (JStr s :: map JStr l) with (map JStr (s :: l)).
  now rewrite strs_of_map.
Qed.

Lemma section_text_placeholder (kv : list (string * json)) (key : string) :
  Py.assoc key kv = None \/ Py.assoc key kv = Some (JArr []) ->
  get_section_text (JObj kv) key = Ok no_information.
Proof.
  intros [E|E]; unfold get_section_text; cbn [Py.get rbind]; now rewrite E.
Qed.

Lemma prompt_has_sections (profile_text : string) (rec : DrugRecord) :
  Py.contains (contraindications rec) (user_prompt profile_text rec) = true
  /\ Py.contains (warnings_and_precautions rec) (user_prompt profile_text rec)
     = true
  /\ Py.contains (drugInteractions rec) (user_prompt profile_text rec) = true
  /\ Py.contains (adverseReactions rec) (user_prompt profile_text rec) = true.
Proof.
  unfold user_prompt.
  repeat split; repeat (first [apply contains_here | apply contains_skip]).
Qed.

(** C7.  A section that is a non-empty list of strings renders as the
    lowercase space-join of its items, a missing or empty one as the
    placeholder, and the rendering of each of the four sections of a
    fetched record is part of the prompt composed from that record. *)
Theorem sections_rendered_and_prompted :
  (forall kv key l,
      l <> [] ->
      Py.assoc key kv = Some (JArr (map JStr l)) ->
      get_section_text (JObj kv) key = Ok (Py.lower (Py.join_strs " " l)))
  /\ (forall kv key,
        Py.assoc key kv = None \/ Py.assoc key kv = Some (JArr []) ->
        get_section_text (JObj kv) key = Ok "No information listed.")
  /\ (forall data drug_name rec profile_text,
        drug_record_of data drug_name = Ok (Some rec) ->
        exists results drug,
          Py.subscript data "results" = Ok results
          /\ Py.first_item results = Ok drug
          /\ forall key,
              In key section_keys ->
              exists t,
                get_section_text drug key = Ok t
                /\ Py.contains t (user_prompt profile_text rec) = true).
Proof.
  split; [exact section_text_list|].
  split; [exact section_text_placeholder|].
  intros data drug_name rec profile_text E.
  destruct (drug_record_of_some _ _ _ E)
    as (results & drug & o & b & g & Er & Ed & _ & _ & _ & _ & _ & Ec & Ew & Ei & Ea).
  destruct (prompt_has_sections profile_text rec) as (Pc & Pw & Pi & Pa).
  exists results, drug. repeat split; [assumption..|].
  intros key Hk. simpl in Hk.
  destruct Hk as [Hk|[Hk|[Hk|[Hk|[]]]]]; subst key.
  - exists (contraindications rec). split; [exact Ec | exact Pc].
  - exists (warnings_and_precautions rec). split; [exact Ew | exact Pw].
  - exists (drugInteractions rec). split; [exact Ei | exact Pi].
  - exists (adverseReactions rec). split; [exact Ea | exact Pa].
Qed.

Lemma sections_rendered_and_prompted_witness :
  get_section_text Stub.lisinopril_label "contraindications"
  = Ok "do not use with aliskiren. history of angioedema."
  /\ get_section_text Stub.lisinopril_label "adverse_reactions"
     = Ok "No information listed."
  /\ get_section_text Stub.lisinopril_label "drug_interactions"
     = Ok "No information listed."
  /\ exists rec,
      drug_record_of Stub.lisinopril_data (JStr "Lisinopril") = Ok (Some rec)
      /\ forall key,
          In key section_keys ->
          exists t,
            get_section_text Stub.lisinopril_label key = Ok t
            /\ Py.contains t (user_prompt "profile" rec) = true.
Proof.
  destruct sections_rendered_and_prompted as (R1 & R2 & R3).
  split.
  { apply (R1 _ _ ["Do NOT use with Aliskiren."; "History of angioedema."]);
      [discriminate | reflexivity]. }
  split; [apply R2; right; reflexivity|].
  split; [apply R2; left; reflexivity|].
  eexists. split; [reflexivity|].
  destruct (R3 Stub.lisinopril_data (JStr "Lisinopril") _ "profile" eq_refl)
    as (results & drug & Er & Ed & Hk).
  injection Er as <-. injection Ed as <-. exact Hk.
Defined.




(** ** The analyzer *)

Section Analyzer.
Context `{Runtime} {World : Type} `{Services World}.

Lemma attempt_trace (p : string) (s s' : St World) (r : result json) :
  attempt p s = (r, s') -> trace s' = (trace s ++ [EvGenerate p])%list.
Proof.
  unfold attempt, bind, model_generate, raise, ret.
  destruct (generate_content p (world s)) as [[msg|txt] w]; cbn.
  - now intros [= <- <-].
  - destruct (json_loads txt); now intros [= <- <-].
Qed.

Lemma retry_loop_step (n : nat) (d : Z) (p : string) (s : St World) :
  retry_loop (S n) d p s
  = match attempt p s with
    | (Ok v, s1) => (Ok v, s1)
    | (Raise e, s1) =>
        if retryable e
        then retry_loop n (d * 2) p (snd (sleep d s1))
        else (Ok (terminal e), s1)
    end.
Proof.
  cbn [retry_loop]. unfold try_except, any_exception.
  destruct (attempt p s) as [[v|e] s1]; [reflexivity|].
  destruct (retryable e); reflexivity.
Qed.

Lemma retried_snoc (p : string) (k : nat) (d : Z) (s s1 s2 : St World)
    (e : exn) :
  retried p k d s s1 ->
  attempt p s1 = (Raise e, s2) ->
  retryable e = true ->
  retried p (S k) d s (snd (sleep (d * 2 ^ Z.of_nat k) s2)).
Proof.
  intros R. induction R as [d s|k d s e0 sa sb s' A0 R0 S0 R IH];
    intros A Re.
  - rewrite Z.mul_1_r. econstructor; eauto; [reflexivity|constructor].
  - econstructor; eauto.
    replace (d * 2 ^ Z.of_nat (S k))%Z with (d * 2 * 2 ^ Z.of_nat k)%Z
      by (rewrite Nat2Z.inj_succ, Z.pow_succ_r; lia).
    now apply IH.
Qed.

(** The run of the loop with [n + 1] iterations left: some [k <= n]
    retryable failures with their backoff, then a last attempt that
    decides the result. *)
Lemma retry_loop_run (n : nat) (d : Z) (p : string) (s : St World) :
  exists k sk r sk',
    (k <= n)%nat
    /\ retried p k d s sk
    /\ attempt p sk = (r, sk')
    /\ match r with
       | Ok v => retry_loop (S n) d p s = (Ok v, sk')
       | Raise e =>
           if retryable e then
             k = n
             /\ retry_loop (S n) d p s
                = (Ok exhausted, snd (sleep (d * 2 ^ Z.of_nat k) sk'))
           else retry_loop (S n) d p s = (Ok (terminal e), sk')
       end.
Proof.
  revert d s. induction n as [|n IH]; intros d s.
  - exists 0%nat, s. destruct (attempt p s) as [r s1] eqn:A.
    exists r, s1. split; [lia|]. split; [constructor|]. split; [reflexivity|].
    rewrite retry_loop_step, A.
    destruct r as [v|e]; [reflexivity|].
    destruct (retryable e); [|reflexivity].
    split; [reflexivity|]. now rewrite Z.mul_1_r.
  - destruct (attempt p s) as [r s1] eqn:A.
    destruct r as [v|e].
    + exists 0%nat, s, (Ok v), s1.
      split; [lia|]. split; [constructor|]. split; [assumption|].
      now rewrite retry_loop_step, A.
    + destruct (retryable e) eqn:Re.
      * destruct (IH (d * 2)%Z (snd (sleep d s1)))
          as (k & sk & r & sk' & Hk & R & A' & Hr).
        exists (S k), sk, r, sk'.
        split; [lia|].
        split; [econstructor; eauto; reflexivity|].
        split; [assumption|].
        rewrite retry_loop_step, A, Re.
        replace (d * 2 ^ Z.of_nat (S k))%Z with (d * 2 * 2 ^ Z.of_nat k)%Z
          by (rewrite Nat2Z.inj_succ, Z.pow_succ_r; lia).
        destruct r as [v|e']; [assumption|].
        destruct (retryable e'); [|assumption].
        destruct Hr as [-> Hr]. now split.
      * exists 0%nat, s, (Raise e), s1.
        split; [lia|]. split; [constructor|]. split; [assumption|].
        now rewrite Re, retry_loop_step, A, Re.
Qed.

Lemma retried_trace (p : string) (k : nat) (d : Z) (s s' : St World) :
  retried p k d s s' -> trace s' = (trace s ++ backoff p k d)%list.
Proof.
  induction 1 as [d s|k d s e s1 s2 s' A Re Sl R IH]; cbn [backoff].
  - now rewrite app_nil_r.
  - rewrite IH. injection Sl as <-. cbn [log trace].
    rewrite (attempt_trace _ _ _ _ A), <- !app_assoc. reflexivity.
Qed.

(** C2.  The analyzer makes at most three attempts.  Every attempt before
    the last one made failed with a 429/503 error and was followed by a
    sleep, the first of 1 and each next one twice as long.  The last
    attempt decides: its alerts on success, at once a single ERROR alert
    with the message of any other error, and after a third retryable
    failure the generic ERROR alert. *)
Theorem analyze_retry_policy (profile_text : string) (drug : DrugRecord)
    (s : St World) :
  let p := user_prompt profile_text drug in
  exists k sk r sk',
    (k < 3)%nat
    /\ retried p k 1 s sk
    /\ attempt p sk = (r, sk')
    /\ match r with
       | Ok alerts => analyze_with_llm profile_text drug s = (Ok alerts, sk')
       | Raise e =>
           if retryable e then
             k = 2%nat
             /\ analyze_with_llm profile_text drug s
                = (Ok (JArr [alert ERROR
                               "Could not analyze drug after multiple retries."]),
                   snd (sleep 4 sk'))
           else
             analyze_with_llm profile_text drug s
             = (Ok (JArr [alert ERROR
                            ("Could not analyze drug: " ++ exn_str e)]),
                sk')
       end
    /\ exists evs j,
        trace (snd (analyze_with_llm profile_text drug s))
        = (trace s ++ evs)%list
        /\ (List.length (filter is_generate evs) <= 3)%nat
        /\ sleeps evs = firstn j [1; 2; 4]%Z.
Proof.
  intros p. unfold analyze_with_llm, max_retries. fold p.
  destruct (retry_loop_run 2 1 p s) as (k & sk & r & sk' & Hk & R & A & Hr).
  exists k, sk, r, sk'.
  split; [lia|]. split; [assumption|]. split; [assumption|].
  pose proof (retried_trace _ _ _ _ _ R) as Tk.
  pose proof (attempt_trace _ _ _ _ A) as Ta.
  assert (Hk3 : k = 0%nat \/ k = 1%nat \/ k = 2%nat) by lia.
  destruct r as [v|e].
  - split; [assumption|]. rewrite Hr. cbn [snd]. rewrite Ta, Tk, <- app_assoc.
    eexists; exists k. split; [reflexivity|].
    destruct Hk3 as [-> | [-> | ->]]; cbn; split; (lia || reflexivity).
  - destruct (retryable e).
    + destruct Hr as [-> Hr]. split; [split; [reflexivity | exact Hr]|].
      rewrite Hr. cbn [snd sleep log trace].
      rewrite Ta, Tk, <- !app_assoc.
      eexists; exists 3%nat. split; [reflexivity|].
      cbn. split; (lia || reflexivity).
    + split; [assumption|]. rewrite Hr. cbn [snd].
      rewrite Ta, Tk, <- app_assoc.
      eexists; exists k. split; [reflexivity|].
      destruct Hk3 as [-> | [-> | ->]]; cbn; split; (lia || reflexivity).
Qed.

End Analyzer.

(** ** The fetcher *)

Lemma section_text_wf (kv : list (string * json)) (key : string) :
  absent_or wf_section (Py.assoc key kv) = true ->
  exists t, get_section_text (JObj kv) key = Ok t.
Proof.
  unfold get_section_text. cbn [Py.get rbind].
  destruct (Py.assoc key kv) as [v|]; cbn [absent_or]; [|now eexists].
  destruct v as [| | | |l|]; try (now eexists).
  destruct l as [|x l]; [now eexists|].
  intros W. destruct (join_str_list " " _ W) as (ss & _ & ->).
  now eexists.
Qed.

Lemma names_wf (names : list (string * json)) (field : string) (default : string) :
  absent_or str_list (Py.assoc field names) = true ->
  exists t,
    (let? l := Py.get (JObj names) field (JArr [JStr default]) in
     Py.join ", " l) = Ok t.
Proof.
  cbn [Py.get rbind]. destruct (Py.assoc field names) as [v|]; cbn [absent_or].
  - intros W. destruct (join_str_list ", " _ W) as (ss & _ & ->). now eexists.
  - now eexists.
Qed.

Lemma label_record_wf (drug : json) (drug_name : string) :
  wf_label drug = true ->
  exists rec,
    (let? openfda := Py.get drug "openfda" (JObj []) in
     let? brand_names := Py.get openfda "brand_name" (JArr [JStr "N/A"]) in
     let? brand := Py.join ", " brand_names in
     let? openfda' := Py.get drug "openfda" (JObj []) in
     let? generic_names :=
       Py.get openfda' "generic_name" (JArr [JStr drug_name]) in
     let? generic := Py.join ", " generic_names in
     let? c := get_section_text drug "contraindications" in
     let? w := get_section_text drug "warnings_and_precautions" in
     let? i := get_section_text drug "drug_interactions" in
     let? a := get_section_text drug "adverse_reactions" in
     Ok (Some {| brandName := brand; genericName := generic;
                 contraindications := c; warnings_and_precautions := w;
                 drugInteractions := i; adverseReactions := a |}))
    = Ok (Some rec).
Proof.
  destruct drug as [| | | | |kv]; try discriminate.
  cbn [wf_label section_keys forallb]. intros W.
  apply andb_prop in W as [Wo W].
  apply andb_prop in W as [Wc W]. apply andb_prop in W as [Ww W].
  apply andb_prop in W as [Wi W]. apply andb_prop in W as [Wa _].
  assert (N : exists names,
             Py.get (JObj kv) "openfda" (JObj []) = Ok (JObj names)
             /\ wf_names (JObj names) = true).
  { cbn [Py.get]. destruct (Py.assoc "openfda" kv) as [v|].
    - destruct v; try discriminate. eauto.
    - now exists []. }
  destruct N as (names & -> & Wn). cbn [rbind].
  apply andb_prop in Wn as [Wb Wg].
  destruct (names_wf names "brand_name" "N/A" Wb) as (b & Eb).
  destruct (names_wf names "generic_name" drug_name Wg) as (g & Eg).
  cbn [rbind] in Eb, Eg.
  destruct (Py.get (JObj names) "brand_name" _) as [bn|]; [|discriminate].
  destruct (Py.get (JObj names) "generic_name" _) as [gn|]; [|discriminate].
  cbn [rbind] in *. rewrite Eb, Eg. cbn [rbind].
  destruct (section_text_wf kv "contraindications" Wc) as (c & ->).
  destruct (section_text_wf kv "warnings_and_precautions" Ww) as (w & ->).
  destruct (section_text_wf kv "drug_interactions" Wi) as (i & ->).
  destruct (section_text_wf kv "adverse_reactions" Wa) as (a & ->).
  cbn [rbind]. now eexists.
Qed.

Lemma drug_record_of_wf (data : json) (drug_name : string) :
  wf_label_data data = true ->
  exists r, drug_record_of data (JStr drug_name) = Ok r.
Proof.
  destruct data as [| | | | |kv]; try discriminate.
  unfold wf_label_data, drug_record_of. cbn [Py.get Py.subscript rbind].
  destruct (Py.assoc "error" kv) as [e|]; cbn [absent_or].
  - destruct (Py.truthy e); cbn [negb rbind]; [now eexists|].
    destruct (Py.assoc "results" kv) as [res|]; [|now eexists].
    destruct (Py.truthy res) eqn:T; cbn [negb]; [|now eexists].
    destruct res as [| | | |[|drug l]|]; try discriminate.
    intros W. cbn [Py.first_item rbind].
    destruct (label_record_wf drug drug_name W) as (rec & ->). now eexists.
  - cbn [Py.truthy negb rbind].
    destruct (Py.assoc "results" kv) as [res|]; [|now eexists].
    destruct (Py.truthy res) eqn:T; cbn [negb]; [|now eexists].
    destruct res as [| | | |[|drug l]|]; try discriminate.
    intros W. cbn [Py.first_item rbind].
    destruct (label_record_wf drug drug_name W) as (rec & ->). now eexists.
Qed.

Section Fetcher.
Context `{Runtime} {World : Type} `{Services World}.

Lemma fetch_drug_data_run (drug_name : string) (s : St World) :
  fetch_drug_data (JStr drug_name) s
  = let url := search_url (Py.upper drug_name) in
    let s' := log (EvGet url)
                {| world := snd (requests_get url (world s));
                   trace := trace s |} in
    match fst (requests_get url (world s)) with
    | inl _ => (Ok None, s')
    | inr resp =>
        match read_label resp (JStr drug_name) with
        | Ok r => (Ok r, s')
        | Raise e =>
            if is_class RequestException e then (Ok None, s')
            else (Raise e, s')
        end
    end.
Proof.
  unfold fetch_drug_data, bind, lift, try_except, http_get, ret, read_label.
  cbn [upper_of].
  destruct (requests_get _ (world s)) as [[msg|resp] w]; cbn [fst snd].
  - reflexivity.
  - destruct (raise_for_status resp) as [[]|e]; cbn [rbind]; [|reflexivity].
    destruct (response_json resp) as [data|e]; cbn [rbind]; [|reflexivity].
    destruct (drug_record_of data (JStr drug_name)); reflexivity.
Qed.

Lemma fetch_drug_data_total (drug_name : string) (s : St World) :
  lookup_well_formed ->
  exists r s', fetch_drug_data (JStr drug_name) s = (Ok r, s').
Proof.
  intros WF. rewrite fetch_drug_data_run. cbv zeta.
  destruct (fst (requests_get _ (world s))) as [msg|resp] eqn:G;
    [now eexists _, _|].
  unfold read_label.
  destruct (raise_for_status resp) as [[]|e] eqn:Rs; cbn [rbind].
  - unfold response_json.
    destruct (json_loads (text resp)) as [msg|data] eqn:L; cbn [rbind].
    + now eexists _, _.
    + destruct (drug_record_of_wf data drug_name (WF _ _ _ _ G Rs L))
        as (r & ->).
      now eexists _, _.
  - unfold raise_for_status in Rs.
    destruct (_ && _)%bool; [|discriminate]. injection Rs as <-.
    now eexists _, _.
Qed.
End Fetcher.

(** ** The handlers *)

Section Handlers.
Context `{Runtime} {World : Type} `{Services World}.

Lemma analyze_total (profile_text : string) (drug : DrugRecord)
    (s : St World) :
  exists alerts s', analyze_with_llm profile_text drug s = (Ok alerts, s').
Proof.
  unfold analyze_with_llm, max_retries.
  destruct (retry_loop_run 2 1 (user_prompt profile_text drug) s)
    as (k & sk & r & sk' & _ & _ & _ & Hr).
  destruct r as [v|e]; [eauto|].
  destruct (retryable e); [destruct Hr as [_ Hr]|]; eauto.
Qed.

Lemma batch_report_run (profile_text : string) (d : drug_def)
    (s s' : St World) (r : json) :
  batch_report profile_text d s = (Ok r, s') <->
  exists fetched s1,
    fetch_drug_data (JStr (name d)) s = (Ok fetched, s1)
    /\ assembled profile_text (JStr (name d)) (class d)
         "Could not fetch drug data from openFDA." fetched s1 s' r.
Proof.
  unfold batch_report, bind, ret.
  destruct (fetch_drug_data (JStr (name d)) s) as [[fetched|e] s1].
  - destruct fetched as [rec|]; cbn [assembled].
    + destruct (analyze_with_llm profile_text rec s1) as [[alerts|e] s2] eqn:A.
      * split.
        -- intros [= <- <-]. eexists _, _. split; [reflexivity|].
           cbn [assembled]. eexists. split; [exact A | reflexivity].
        -- intros (f & s0 & [= <- <-] & alerts' & E & ->).
           rewrite A in E. now injection E as <- <-.
      * split; [discriminate|].
        intros (f & s0 & [= <- <-] & alerts' & E & _).
        rewrite A in E. discriminate E.
    + split.
      * intros [= <- <-]. now eexists None, _.
      * intros (f & s0 & [= <- <-] & -> & ->). reflexivity.
  - split; [discriminate|]. intros (f & s0 & E & _). discriminate E.
Qed.

Lemma batch_report_total (profile_text : string) (d : drug_def)
    (s : St World) :
  lookup_well_formed ->
  exists r s', batch_report profile_text d s = (Ok r, s').
Proof.
  intros WF.
  destruct (fetch_drug_data_total (name d) s WF) as (fetched & s1 & F).
  destruct fetched as [rec|].
  - destruct (analyze_total profile_text rec s1) as (a & s' & A).
    eexists _, s'. apply batch_report_run. eexists _, _. split; [exact F|].
    cbn. eauto.
  - eexists _, s1. apply batch_report_run. eexists _, _. split; [exact F|].
    cbn. eauto.
Qed.

Lemma report_loop_run (profile_text : string) (drugs : list drug_def)
    (acc all : list json) (s s' : St World) :
  report_loop profile_text drugs acc s = (Ok all, s') ->
  exists rs, all = (acc ++ rs)%list /\ Forall2 (reported profile_text) drugs rs.
Proof.
  revert acc s. induction drugs as [|d drugs IH]; intros acc s; cbn.
  - unfold ret. intros [= <- <-]. exists []. now rewrite app_nil_r.
  - unfold bind at 1.
    destruct (batch_report profile_text d s) as [[r|e] s1] eqn:B;
      [|discriminate].
    intros L. destruct (IH _ _ L) as (rs & -> & F).
    exists (r :: rs). rewrite <- app_assoc. split; [reflexivity|].
    constructor; [now exists s, s1 | exact F].
Qed.

Lemma report_loop_total (profile_text : string) (drugs : list drug_def)
    (acc : list json) (s : St World) :
  lookup_well_formed ->
  exists all s', report_loop profile_text drugs acc s = (Ok all, s').
Proof.
  intros WF. revert acc s.
  induction drugs as [|d drugs IH]; intros acc s; cbn.
  - now eexists _, _.
  - unfold bind at 1.
    destruct (batch_report_total profile_text d s WF) as (r & s1 & ->).
    apply IH.
Qed.

Lemma generate_report_200 (body : json) (s s' : St World)
    (reports : json) :
  generate_report body s = ((200%Z, reports), s') <->
  Py.truthy body = true
  /\ exists profile_text all,
      get_profile_text body = Ok profile_text
      /\ report_loop profile_text COMMON_BP_DRUGS [] s = (Ok all, s')
      /\ reports = JArr all.
Proof.
  unfold generate_report, handler.
  destruct (Py.truthy body); cbn [negb].
  - unfold bind at 1, lift.
    destruct (get_profile_text body) as [profile_text|e].
    + unfold bind, ret.
      destruct (report_loop profile_text COMMON_BP_DRUGS [] s)
        as [[all|e] s1] eqn:L.
      * split.
        -- intros [= <- <-]. split; [reflexivity|].
           eexists _, _. split; [reflexivity|]. split; [exact L|reflexivity].
        -- intros (_ & t & a & [= <-] & E & ->).
           rewrite L in E. now injection E as <- <-.
      * split; [discriminate|].
        intros (_ & t & a & [= <-] & E & _). rewrite L in E. discriminate E.
    + split; [discriminate|]. intros (_ & t & a & E & _). discriminate E.
  - unfold ret. split; [discriminate|]. intros [E _]. discriminate E.
Qed.

Lemma check_single_drug_obj (kv : list (string * json)) (s : St World) :
  check_single_drug (JObj kv) s
  = match Py.assoc "profile" kv, Py.assoc "drugName" kv with
    | Some profile, Some drug_name =>
        handler
          (profile_text <- lift (get_profile_text profile) ;;
           drug_data <- fetch_drug_data drug_name ;;
           match drug_data with
           | None =>
               ret (200%Z,
                    report drug_name (JStr "N/A") (JStr "Custom Search")
                      (JArr [alert ERROR (not_found drug_name)]) (JObj []))
           | Some drug_data =>
               alerts <- analyze_with_llm profile_text drug_data ;;
               ret (200%Z,
                    report (JStr (genericName drug_data))
                      (JStr (brandName drug_data)) (JStr "Custom Search")
                      alerts (record_json drug_data))
           end) s
    | _, _ => ((400%Z, error_body "Missing profile or drugName"), s)
    end.
Proof.
  unfold check_single_drug, handler.
  unfold bind at 1. unfold lift at 1.
  destruct kv as [|b kv]; [reflexivity|].
  cbn [Py.truthy negb Py.has rbind Py.subscript].
  destruct (Py.assoc "profile" (b :: kv)) as [profile|];
    cbn [negb rbind]; [|reflexivity].
  destruct (Py.assoc "drugName" (b :: kv)) as [drug_name|];
    cbn [negb rbind]; [|reflexivity].
  unfold bind at 1. unfold lift at 1.
  unfold bind at 1. unfold lift at 1. reflexivity.
Qed.

Lemma check_single_drug_200 (body : json) (s s' : St World) (r : json) :
  check_single_drug body s = ((200%Z, r), s') <->
  exists profile drug_name profile_text fetched s1,
    Py.subscript body "profile" = Ok profile
    /\ Py.subscript body "drugName" = Ok drug_name
    /\ get_profile_text profile = Ok profile_text
    /\ fetch_drug_data drug_name s = (Ok fetched, s1)
    /\ assembled profile_text drug_name "Custom Search"
         (not_found drug_name) fetched s1 s' r.
Proof.
  destruct body as [|b|n|t|l|kv].
  1-5: split; [|intros (p & d & t' & f & s1 & E & _); discriminate E].
  - discriminate.
  - destruct b; discriminate.
  - unfold check_single_drug, handler, bind, lift, ret. cbn.
    destruct (n =? 0)%Z; discriminate.
  - unfold check_single_drug, handler, bind, lift, ret. cbn.
    destruct (t =? ""); cbn; [discriminate|].
    destruct (Py.contains "profile" t); cbn; [|discriminate].
    destruct (Py.contains "drugName" t); cbn; discriminate.
  - unfold check_single_drug, handler, bind, lift, ret. cbn.
    destruct l; cbn; [discriminate|].
    destruct (_ || _)%bool; cbn; [|discriminate].
    destruct (_ || _)%bool; cbn; discriminate.
  - rewrite check_single_drug_obj. cbn [Py.subscript].
    destruct (Py.assoc "profile" kv) as [profile|] eqn:Ep;
      [|split; [discriminate|];
        intros (p & d & t' & f & s0 & E1 & E2 & E3 & E4 & _); congruence].
    destruct (Py.assoc "drugName" kv) as [drug_name|] eqn:En;
      [|split; [discriminate|];
        intros (p & d & t' & f & s0 & E1 & E2 & E3 & E4 & _); congruence].
    unfold handler, bind, lift, ret.
    destruct (get_profile_text profile) as [profile_text|e] eqn:G;
      [|split; [discriminate|];
        intros (p & d & t' & f & s0 & E1 & E2 & E3 & E4 & _); congruence].
    destruct (fetch_drug_data drug_name s) as [[fetched|e] s1] eqn:F;
      [|split; [discriminate|];
        intros (p & d & t' & f & s0 & E1 & E2 & E3 & E4 & _); congruence].
    assert (inv : forall p d t' f s0,
               Ok profile = Ok p -> Ok drug_name = Ok d ->
               get_profile_text p = Ok t' ->
               fetch_drug_data d s = (Ok f, s0) ->
               p = profile /\ d = drug_name /\ t' = profile_text
               /\ f = fetched /\ s0 = s1).
    { intros p d t' f s0 [= <-] [= <-] E3 E4.
      rewrite G in E3. rewrite F in E4.
      injection E3 as <-. injection E4 as <- <-. auto. }
    destruct fetched as [rec|].
    + destruct (analyze_with_llm profile_text rec s1) as [[alerts|e] s2] eqn:A.
      * split.
        -- intros [= <- <-]. exists profile, drug_name, profile_text, (Some rec), s1.
           repeat (split; [first [reflexivity | assumption]|]).
           cbn [assembled]. eexists. split; [exact A | reflexivity].
        -- intros (p & d & t' & f & s0 & E1 & E2 & E3 & E4 & Hr).
           destruct (inv _ _ _ _ _ E1 E2 E3 E4) as (-> & -> & -> & -> & ->).
           destruct Hr as (alerts' & E & ->).
           rewrite A in E. now injection E as <- <-.
      * split; [discriminate|].
        intros (p & d & t' & f & s0 & E1 & E2 & E3 & E4 & Hr).
        destruct (inv _ _ _ _ _ E1 E2 E3 E4) as (-> & -> & -> & -> & ->).
        destruct Hr as (alerts' & E & _).
        rewrite A in E. discriminate E.
    + split.
      * intros [= <- <-]. exists profile, drug_name, profile_text, None, s1.
        repeat (split; [first [reflexivity | assumption]|]). now cbn.
      * intros (p & d & t' & f & s0 & E1 & E2 & E3 & E4 & Hr).
        destruct (inv _ _ _ _ _ E1 E2 E3 E4) as (-> & -> & -> & -> & ->).
        destruct Hr as [-> ->]. reflexivity.
Qed.
End Handlers.

Lemma Forall2_nth {A B} (P : A -> B -> Prop) (l : list A) (l' : list B) :
  Forall2 P l l' ->
  forall i a, nth_error l i = Some a ->
  exists b, nth_error l' i = Some b /\ P a b.
Proof.
  induction 1 as [|x y l l' Hxy _ IH]; intros [|i] a E; try discriminate.
  - injection E as <-. now exists y.
  - exact (IH i a E).
Qed.

Section Reports.
Context `{Runtime} {World : Type} `{Services World}.

(** C1, as the code has it.  For a drug name the lookup cannot resolve,
    the single-drug handler answers with the degraded report whose one
    ERROR alert names the drug and whose data is the empty object; the
    batch handler puts at the place of that catalog entry the report with
    the one fixed ERROR alert and the empty object. *)
Theorem unresolved_drug_reports (drug_name : string) :
  unresolved (JStr drug_name) ->
  (forall body profile profile_text s,
      Py.subscript body "profile" = Ok profile ->
      Py.subscript body "drugName" = Ok (JStr drug_name) ->
      get_profile_text profile = Ok profile_text ->
      exists finding,
        fst (check_single_drug body s)
        = (200%Z,
           report (JStr drug_name) (JStr "N/A") (JStr "Custom Search")
             (JArr [alert ERROR finding]) (JObj []))
        /\ Py.contains drug_name finding = true)
  /\ (forall body s reports,
        fst (generate_report body s) = (200%Z, JArr reports) ->
        forall i d,
          nth_error COMMON_BP_DRUGS i = Some d ->
          name d = drug_name ->
          nth_error reports i
          = Some (report (JStr drug_name) (JStr "N/A") (JStr (class d))
                    (JArr [alert ERROR
                             "Could not fetch drug data from openFDA."])
                    (JObj []))).
Proof.
  intros U. split.
  - intros body profile profile_text s Ep En Et.
    exists (not_found (JStr drug_name)). split.
    + destruct (fetch_drug_data (JStr drug_name) s) as [fetched s1] eqn:F.
      pose proof (U s) as Us. rewrite F in Us. cbn [fst] in Us. subst fetched.
      assert (E : check_single_drug body s
                  = ((200%Z,
                      report (JStr drug_name) (JStr "N/A")
                        (JStr "Custom Search")
                        (JArr [alert ERROR (not_found (JStr drug_name))])
                        (JObj [])), s1)).
      { apply check_single_drug_200.
        exists profile, (JStr drug_name), profile_text, None, s1.
        repeat (split; [assumption|]). now cbn. }
      now rewrite E.
    + unfold not_found. cbn [str]. apply contains_mid.
  - intros body s reports E i d Ei En.
    destruct (generate_report body s) as [resp s'] eqn:G.
    cbn [fst] in E. subst resp.
    apply generate_report_200 in G as (_ & profile_text & all & _ & L & [= <-]).
    apply report_loop_run in L as (rs & -> & F). cbn [app].
    destruct (Forall2_nth _ _ _ F i d Ei) as (r & -> & s0 & s1 & B).
    apply batch_report_run in B as (fetched & s2 & Ef & As).
    rewrite En in Ef. pose proof (U s0) as Us. rewrite Ef in Us.
    cbn [fst] in Us. injection Us as ->. destruct As as [_ ->].
    now rewrite En.
Qed.
End Reports.

Section ReportsMore.
Context `{Runtime} {World : Type} `{Services World}.

Lemma reported_class (profile_text : string) (d : drug_def) (r : json) :
  reported profile_text d r ->
  Py.subscript r "drugClass" = Ok (JStr (class d)).
Proof.
  intros (s & s' & B).
  apply batch_report_run in B as (fetched & s1 & _ & As).
  destruct fetched as [rec|].
  - destruct As as (alerts & _ & ->). reflexivity.
  - destruct As as [_ ->]. reflexivity.
Qed.

(** C3, as the code has it.  For a non-empty patient profile, with a
    lookup service whose parsed replies are well-formed label data, the
    batch handler answers 200 with exactly one report per catalog entry,
    in catalog order: the i-th report is the one the loop body produces
    for the i-th entry and carries its drug class, whatever the outcome
    of the fetch and of the analysis of any entry. *)
Theorem generate_report_one_per_entry (body : json) (s : St World) :
  Py.truthy body = true ->
  is_profile body = true ->
  lookup_well_formed ->
  exists profile_text reports s',
    get_profile_text body = Ok profile_text
    /\ generate_report body s = ((200%Z, JArr reports), s')
    /\ List.length reports = 5%nat
    /\ Forall2
         (fun d r =>
            reported profile_text d r
            /\ Py.subscript r "drugClass" = Ok (JStr (class d)))
         COMMON_BP_DRUGS reports.
Proof.
  intros T P WF.
  destruct body as [| | | | |kv]; try discriminate.
  destruct (get_profile_text_spec kv P) as (a & m & E & _).
  match type of E with _ = Ok ?t => set (profile_text := t) in * end.
  destruct (report_loop_total profile_text COMMON_BP_DRUGS [] s WF)
    as (all & s' & L).
  exists profile_text, all, s'.
  split; [exact E|].
  split.
  { apply generate_report_200. split; [assumption|].
    eexists _, all. split; [exact E|]. split; [exact L | reflexivity]. }
  apply report_loop_run in L as (rs & -> & F). cbn [app].
  split.
  - apply Forall2_length in F. now rewrite <- F.
  - clear -F. induction F as [|d r l l' R _ IH]; constructor; [|exact IH].
    split; [exact R | exact (reported_class _ _ _ R)].
Qed.




End ReportsMore.

(** ** Determinism *)

Section Stable.
Context {W : Type}.

Lemma stable_ret {A} (a : A) : stable (@ret W A a).
Proof. intros s1 s2. reflexivity. Qed.

Lemma stable_lift {A} (r : result A) : stable (@lift W A r).
Proof. intros s1 s2. reflexivity. Qed.

Lemma stable_bind {A B} (m : M W A) (k : A -> M W B) :
  stable m -> (forall a, stable (k a)) -> stable (bind m k).
Proof.
  intros Sm Sk s1 s2. unfold bind. specialize (Sm s1 s2).
  destruct (m s1) as [r1 t1], (m s2) as [r2 t2]. cbn [fst] in Sm. subst r2.
  destruct r1 as [a|e]; [apply Sk | reflexivity].
Qed.

Lemma stable_try {A} (m : M W A) (catches : exn -> bool) (h : exn -> M W A) :
  stable m -> (forall e, stable (h e)) -> stable (try_except m catches h).
Proof.
  intros Sm Sh s1 s2. unfold try_except. specialize (Sm s1 s2).
  destruct (m s1) as [r1 t1], (m s2) as [r2 t2]. cbn [fst] in Sm. subst r2.
  destruct r1 as [a|e]; [reflexivity|].
  destruct (catches e); [apply Sh | reflexivity].
Qed.
End Stable.

Section Determinism.
Context `{Runtime} {World : Type} `{Services World}.
Hypothesis D : deterministic.

Lemma stable_http_get (url : string) : stable (http_get url).
Proof.
  destruct D as [(pages & P) _]. intros s1 s2. unfold http_get.
  pose proof (P url (world s1)) as P1. pose proof (P url (world s2)) as P2.
  destruct (requests_get url (world s1)) as [r1 w1].
  destruct (requests_get url (world s2)) as [r2 w2].
  cbn [fst] in P1, P2. subst r1 r2. now destruct (pages url).
Qed.

Lemma stable_model_generate (p : string) : stable (model_generate p).
Proof.
  destruct D as [_ (reply & R)]. intros s1 s2. unfold model_generate.
  pose proof (R p (world s1)) as R1. pose proof (R p (world s2)) as R2.
  destruct (generate_content p (world s1)) as [r1 w1].
  destruct (generate_content p (world s2)) as [r2 w2].
  cbn [fst] in R1, R2. subst r1 r2. now destruct (reply p).
Qed.

Lemma stable_sleep (d : Z) : stable (sleep d).
Proof. intros s1 s2. reflexivity. Qed.

Lemma stable_fetch (drug_name : json) : stable (fetch_drug_data drug_name).
Proof.
  unfold fetch_drug_data.
  apply stable_bind; [apply stable_lift|]. intros up.
  apply stable_try; [|intros e; apply stable_ret].
  apply stable_bind; [apply stable_http_get|]. intros resp.
  apply stable_bind; [apply stable_lift|]. intros _.
  apply stable_bind; [apply stable_lift|]. intros data.
  apply stable_lift.
Qed.

Lemma stable_attempt (p : string) : stable (attempt p).
Proof.
  unfold attempt. apply stable_bind; [apply stable_model_generate|].
  intros txt. destruct (json_loads txt); [intros s1 s2; reflexivity|].
  apply stable_ret.
Qed.

Lemma stable_retry_loop (n : nat) (d : Z) (p : string) :
  stable (retry_loop n d p).
Proof.
  revert d. induction n as [|n IH]; intros d; cbn [retry_loop].
  - apply stable_ret.
  - apply stable_try; [apply stable_attempt|]. intros e.
    destruct (retryable e); [|apply stable_ret].
    apply stable_bind; [apply stable_sleep|]. intros _. apply IH.
Qed.

Lemma stable_handler (m : M World response) (s1 s2 : St World) :
  stable m -> fst (handler m s1) = fst (handler m s2).
Proof.
  intros Sm. unfold handler. specialize (Sm s1 s2).
  destruct (m s1) as [r1 t1], (m s2) as [r2 t2]. cbn [fst] in Sm. subst r2.
  now destruct r1.
Qed.

(** C9.  With deterministic services, the single-drug handler answers the
    same request with the same response in whatever state of the world it
    is invoked, so two invocations in a row give identical reports. *)
Theorem check_single_drug_idempotent (body : json) (s1 s2 : St World) :
  fst (check_single_drug body s1) = fst (check_single_drug body s2).
Proof.
  unfold check_single_drug. apply stable_handler.
  apply stable_bind; [apply stable_lift|]. intros missing.
  destruct missing; [apply stable_ret|].
  apply stable_bind; [apply stable_lift|]. intros profile.
  apply stable_bind; [apply stable_lift|]. intros drug_name.
  apply stable_bind; [apply stable_lift|]. intros profile_text.
  apply stable_bind; [apply stable_fetch|]. intros [rec|];
    [|apply stable_ret].
  apply stable_bind; [apply stable_retry_loop|]. intros alerts.
  apply stable_ret.
Qed.
End Determinism.

(** ** The handlers on the stubs *)

Module StubFacts.
Import Stub.

Lemma offline_unresolved (drug_name : string) :
@unresolved R _ offline (JStr drug_name).
Proof. intros s. reflexivity. Qed.

Lemma online_well_formed : @lookup_well_formed R _ online.
Proof.
intros url w resp data G _ L.
change (match lookup url pages with
        | Some r => inr r
        | None => inl "Read timed out."
        end = @inr string http_response resp) in G.
unfold pages, lookup in G.
destruct (url =? lisinopril_url); [|discriminate G].
injection G as <-. vm_compute in L. injection L as <-. reflexivity.
Qed.

Lemma steady_lists_alerts : @model_lists_alerts R _ steady.
Proof.
intros prompt w txt v G L. cbn in G. injection G as <-.
vm_compute in L. injection L as <-. reflexivity.
Qed.

Lemma steady_deterministic : @deterministic _ steady.
Proof.
split.
- exists (fun url => fst (@requests_get _ steady url 0%nat)).
  intros url w. reflexivity.
- exists (fun prompt => fst (@generate_content _ steady prompt 0%nat)).
  intros prompt w. reflexivity.
Qed.
End StubFacts.

Lemma unresolved_drug_reports_witness :
  (exists finding,
      fst (@check_single_drug Stub.R _ Stub.offline
             (Stub.request "Lisinoprill") (Stub.start []))
      = (200%Z,
         report (JStr "Lisinoprill") (JStr "N/A") (JStr "Custom Search")
           (JArr [alert ERROR finding]) (JObj []))
      /\ Py.contains "Lisinoprill" finding = true)
  /\ forall reports,
      fst (@generate_report Stub.R _ Stub.offline Stub.profile
             (Stub.start []))
      = (200%Z, JArr reports) ->
      nth_error reports 1
      = Some (report (JStr "Losartan") (JStr "N/A") (JStr "ARB")
                (JArr [alert ERROR "Could not fetch drug data from openFDA."])
                (JObj [])).
Proof.
  split.
  - destruct (@unresolved_drug_reports Stub.R _ Stub.offline
                "Lisinoprill" (StubFacts.offline_unresolved _)) as [S _].
    apply (S (Stub.request "Lisinoprill") Stub.profile
             (block (profile_lines "BP 150/95" "" "penicillin" "N/A")));
      reflexivity.
  - intros reports E.
    destruct (@unresolved_drug_reports Stub.R _ Stub.offline
                "Losartan" (StubFacts.offline_unresolved _)) as [_ B].
    apply (B Stub.profile (Stub.start []) reports E 1%nat
             {| class := "ARB"; name := "Losartan" |}); reflexivity.
Defined.

(** C1 as stated does not hold for the batch handler: the finding of its
    ERROR alert is a fixed message that does not name the drug. *)
Lemma batch_finding_counterexample :
  @unresolved Stub.R _ Stub.offline (JStr "Lisinopril")
  /\ exists reports r finding,
      fst (@generate_report Stub.R _ Stub.offline Stub.profile
             (Stub.start []))
      = (200%Z, JArr reports)
      /\ nth_error reports 0 = Some r
      /\ Py.subscript r "genericName" = Ok (JStr "Lisinopril")
      /\ Py.subscript r "alerts" = Ok (JArr [alert ERROR finding])
      /\ Py.contains "Lisinopril" finding = false.
Proof.
  split; [apply StubFacts.offline_unresolved|].
  eexists _, _, _. split; [reflexivity|].
  split; [reflexivity|]. split; [reflexivity|]. split; reflexivity.
Qed.

Lemma generate_report_one_per_entry_witness :
  exists profile_text reports s',
    @get_profile_text Stub.R Stub.profile = Ok profile_text
    /\ @generate_report Stub.R _ Stub.online Stub.profile
         (Stub.start [inr Stub.info_text])
       = ((200%Z, JArr reports), s')
    /\ List.length reports = 5%nat
    /\ Forall2
         (fun d r =>
            @reported Stub.R _ Stub.online profile_text d r
            /\ Py.subscript r "drugClass" = Ok (JStr (class d)))
         COMMON_BP_DRUGS reports.
Proof.
  apply (@generate_report_one_per_entry Stub.R _ Stub.online
           Stub.profile (Stub.start [inr Stub.info_text]));
    [reflexivity | reflexivity | exact StubFacts.online_well_formed].
Defined.

(** C3 as stated does not hold for the profile with every field missing:
    the handler takes the empty object for a missing body. *)
Lemma empty_profile_counterexample :
  is_profile (JObj []) = true
  /\ fst (@generate_report Stub.R _ Stub.online (JObj [])
            (Stub.start [inr Stub.info_text]))
     = (400%Z, JObj [("error", JStr "No patient profile provided")]).
Proof. split; reflexivity. Qed.



Lemma check_single_drug_idempotent_witness :
  fst (@check_single_drug Stub.R _ Stub.steady
         (Stub.request "Lisinopril") (Stub.start 0%nat))
  = fst (@check_single_drug Stub.R _ Stub.steady
           (Stub.request "Lisinopril")
           (snd (@check_single_drug Stub.R _ Stub.steady
                   (Stub.request "Lisinopril") (Stub.start 0%nat)))).
Proof.
  apply (@check_single_drug_idempotent Stub.R _ Stub.steady
           StubFacts.steady_deterministic).
Defined.

(** ** Further properties of the fetcher's pure part *)


Lemma upper_lower_ascii (c : ascii) :
  Py.upper_ascii (Py.lower_ascii c) = Py.upper_ascii c.
Proof.
  destruct c as [[] [] [] [] [] [] [] []]; vm_compute; reflexivity.
Qed.



Lemma upper_lower (s : string) : Py.upper (Py.lower s) = Py.upper s.
Proof.
  induction s as [|c s IH]; [reflexivity|].
  cbn. fold (Py.lower s). fold (Py.upper (Py.lower s)). fold (Py.upper s).
  now rewrite upper_lower_ascii, IH.
Qed.




(** X2.  A section that is present but is not a list (a plain string, a number,
    an object, null) renders as the placeholder; its content is dropped. *)
Theorem unlisted_section_is_placeholder (kv : list (string * json))
    (key : string) (v : json) :
  Py.assoc key kv = Some v ->
  (forall l, v <> JArr l) ->
  get_section_text (JObj kv) key = Ok "No information listed.".
Proof.
  intros E N. unfold get_section_text. cbn [Py.get rbind]. rewrite E.
  destruct v as [| | | |l|]; try reflexivity. now elim (N l).
Qed.

Lemma unlisted_section_is_placeholder_witness :
  get_section_text (JObj [("warnings", JStr "Avoid alcohol.")]) "warnings"
  = Ok "No information listed.".
Proof.
  apply (unlisted_section_is_placeholder
           [("warnings", JStr "Avoid alcohol.")] "warnings"
           (JStr "Avoid alcohol."));
    [reflexivity | discriminate].
Defined.

(** X3.  The reply of the lookup service counts as "no result" exactly when it is
    an object that carries a truthy [error] or whose [results] is missing
    or falsy (null, empty list, ...). *)
Theorem no_result_iff (data drug_name : json) :
  drug_record_of data drug_name = Ok None <->
  exists kv,
    data = JObj kv
    /\ ((exists e, Py.assoc "error" kv = Some e /\ Py.truthy e = true)
        \/ Py.assoc "results" kv = None
        \/ exists r, Py.assoc "results" kv = Some r /\ Py.truthy r = false).
Proof.
  split.
  - intros E. destruct data as [| | | | |kv]; try discriminate.
    exists kv. split; [reflexivity|].
    unfold drug_record_of in E. cbn [Py.get rbind] in E.
    destruct (Py.assoc "error" kv) as [e|] eqn:Ee.
    + destruct (Py.truthy e) eqn:Te; [left; eauto|].
      cbn [rbind negb] in E.
      destruct (Py.assoc "results" kv) as [r|] eqn:Er; [|now right; left].
      destruct (Py.truthy r) eqn:Tr; [|right; right; eauto].
      cbn [negb] in E. invert_rbind. discriminate E.
    + cbn [Py.truthy rbind negb] in E.
      destruct (Py.assoc "results" kv) as [r|] eqn:Er; [|now right; left].
      destruct (Py.truthy r) eqn:Tr; [|right; right; eauto].
      cbn [negb] in E. invert_rbind. discriminate E.
  - intros (kv & -> & C). unfold drug_record_of. cbn [Py.get rbind].
    destruct C as [(e & -> & ->)|[Er|(r & Er & Tr)]]; [reflexivity|..].
    + rewrite Er.
      destruct (match Py.assoc "error" kv with Some v => v | None => JNull end);
        cbn; try reflexivity.
      * now destruct b.
      * now destruct (n =? 0)%Z.
      * now destruct (s =? "").
      * now destruct items.
      * now destruct fields.
    + rewrite Er.
      destruct (Py.truthy (match Py.assoc "error" kv with
                           | Some v => v | None => JNull end));
        cbn [rbind]; [reflexivity|]. now rewrite Tr.
Qed.

(** X4.  Several names listed under [openfda.brand_name] or
    [openfda.generic_name] are joined with a comma and a space. *)
Theorem listed_names_joined (data drug_name : json) (rec : DrugRecord) :
  drug_record_of data drug_name = Ok (Some rec) ->
  exists results kv,
    Py.subscript data "results" = Ok results
    /\ Py.first_item results = Ok (JObj kv)
    /\ forall names,
        Py.assoc "openfda" kv = Some (JObj names) ->
        (forall ss,
            Py.assoc "brand_name" names = Some (JArr (map JStr ss)) ->
            brandName rec = Py.join_strs ", " ss)
        /\ (forall ss,
              Py.assoc "generic_name" names = Some (JArr (map JStr ss)) ->
              genericName rec = Py.join_strs ", " ss).
Proof.
  intros E.
  destruct (drug_record_of_some _ _ _ E)
    as (results & drug & o & b & g & Er & Ed & Eo & Eb & Jb & Eg & Jg & _).
  destruct drug as [| | | | |kv]; try discriminate.
  exists results, kv. split; [assumption|]. split; [assumption|].
  intros names En. cbn [Py.get] in Eo. rewrite En in Eo. injection Eo as <-.
  cbn [Py.get] in Eb, Eg.
  split; intros ss Es.
  - rewrite Es in Eb. injection Eb as <-.
    unfold Py.join in Jb. rewrite strs_of_map in Jb. congruence.
  - rewrite Es in Eg. injection Eg as <-.
    unfold Py.join in Jg. rewrite strs_of_map in Jg. congruence.
Qed.

Lemma listed_names_joined_witness :
  exists rec,
    drug_record_of Stub.two_brands_data (JStr "lisinopril")
    = Ok (Some rec)
    /\ brandName rec = "Prinivil, Zestril".
Proof.
  eexists. split; [reflexivity|].
  destruct (listed_names_joined
              Stub.two_brands_data
              (JStr "lisinopril") _ eq_refl)
    as (results & kv & Er & Ed & Hn).
  injection Er as <-. injection Ed as <-.
  destruct (Hn _ eq_refl) as [Hb _].
  exact (Hb ["Prinivil"; "Zestril"] eq_refl).
Defined.

(** X5.  The prompt carries the profile text and the generic name of the drug. *)
Theorem prompt_has_profile_and_name (profile_text : string)
    (rec : DrugRecord) :
  Py.contains profile_text (user_prompt profile_text rec) = true
  /\ Py.contains (genericName rec) (user_prompt profile_text rec) = true.
Proof.
  unfold user_prompt.
  split; repeat (first [apply contains_here | apply contains_skip]).
Qed.

(** ** Substrings and the retry test *)

Lemma prefix_split (t s : string) :
  String.prefix t s = true -> exists b, s = t ++ b.
Proof.
  revert s. induction t as [|c t IH]; intros s.
  - intros _. now exists s.
  - destruct s as [|c' s]; cbn [String.prefix]; [intros P; discriminate P|].
    destruct (Ascii.ascii_dec c c') as [<-|]; [|intros P; discriminate P].
    intros P. destruct (IH s P) as (b & ->). now exists b.
Qed.

Lemma contains_split (t s : string) :
  Py.contains t s = true <-> exists a b, s = a ++ t ++ b.
Proof.
  split.
  - induction s as [|c s IH]; cbn [Py.contains].
    + destruct (String.prefix t "") eqn:P; [|discriminate].
      intros _. destruct (prefix_split _ _ P) as (b & E). now exists "", b.
    + destruct (String.prefix t (String c s)) eqn:P.
      * intros _. destruct (prefix_split _ _ P) as (b & E). now exists "", b.
      * intros C. destruct (IH C) as (a & b & ->).
        now exists (String c a), b.
  - intros (a & b & ->). apply contains_mid.
Qed.

(** X6.  An error is retried exactly when its message has 429 or 503 somewhere
    in it, whatever surrounds the digits. *)
Theorem retryable_iff (e : exn) :
  retryable e = true <->
  exists a b, exn_str e = a ++ "429" ++ b \/ exn_str e = a ++ "503" ++ b.
Proof.
  unfold retryable. rewrite orb_true_iff, !contains_split. split.
  - intros [(a & b & E)|(a & b & E)]; exists a, b; auto.
  - intros (a & b & [E|E]); [left | right]; eauto.
Qed.

(** ** What the fetcher sends and how it fails *)

Lemma benign_bind {A B} (r : result A) (k : A -> result B) :
  benign r -> (forall a, benign (k a)) -> benign (rbind r k).
Proof. destruct r as [a|e]; cbn; auto. Qed.

Lemma benign_get (d : json) (k : string) (v : json) : benign (Py.get d k v).
Proof. destruct d; exact I || reflexivity. Qed.

Lemma benign_join (sep : string) (x : json) : benign (Py.join sep x).
Proof.
  destruct x; cbn; try exact I; try reflexivity.
  destruct (Py.strs_of items); [exact I | reflexivity].
Qed.

Lemma benign_subscript (x : json) (k : string) : benign (Py.subscript x k).
Proof.
  destruct x; cbn; try reflexivity.
  destruct (Py.assoc k fields); [exact I | reflexivity].
Qed.

Lemma benign_first_item (x : json) : benign (Py.first_item x).
Proof.
  destruct x as [| | |s|l|]; cbn; try reflexivity.
  - destruct s; [reflexivity | exact I].
  - destruct l; [reflexivity | exact I].
Qed.

Lemma benign_section (drug : json) (key : string) :
  benign (get_section_text drug key).
Proof.
  unfold get_section_text. apply benign_bind; [apply benign_get|].
  intros v. destruct v as [| | | |[|x l]|]; try exact I.
  apply benign_bind; [apply benign_join | intros; exact I].
Qed.

Lemma benign_record (data drug_name : json) :
  benign (drug_record_of data drug_name).
Proof.
  unfold drug_record_of.
  apply benign_bind; [apply benign_get|]. intros e.
  apply benign_bind.
  { destruct (Py.truthy e); [exact I|].
    apply benign_bind; [apply benign_get | intros; exact I]. }
  intros [|]; [exact I|].
  apply benign_bind; [apply benign_subscript|]. intros results.
  apply benign_bind; [apply benign_first_item|]. intros drug.
  apply benign_bind; [apply benign_get|]. intros o.
  apply benign_bind; [apply benign_get|]. intros b.
  apply benign_bind; [apply benign_join|]. intros bs.
  apply benign_bind; [apply benign_get|]. intros o'.
  apply benign_bind; [apply benign_get|]. intros g.
  apply benign_bind; [apply benign_join|]. intros gs.
  do 4 (apply benign_bind; [apply benign_section|]; intros ?).
  exact I.
Qed.

Lemma no_result_any_name (data n1 n2 : json) :
  drug_record_of data n1 = Ok None -> drug_record_of data n2 = Ok None.
Proof.
  intros E. unfold drug_record_of in *.
  destruct (Py.get data "error" JNull) as [e|]; [|discriminate].
  cbn [rbind] in *.
  destruct (if Py.truthy e then Ok true else _) as [[|]|]; cbn [rbind] in *;
    [reflexivity | | discriminate].
  invert_rbind. discriminate E.
Qed.

Section FetcherMore.
Context `{Runtime} {World : Type} `{Services World}.

Lemma read_label_absent (resp : http_response) (n1 n2 : json) :
  (read_label resp n1 = Ok None
   \/ exists e, read_label resp n1 = Raise e
                /\ is_class RequestException e = true) ->
  read_label resp n2 = Ok None
  \/ exists e, read_label resp n2 = Raise e
               /\ is_class RequestException e = true.
Proof.
  unfold read_label.
  destruct (raise_for_status resp) as [[]|e]; cbn [rbind]; [|auto].
  destruct (response_json resp) as [data|e]; cbn [rbind]; [|auto].
  intros [E|(e & E & C)].
  - left. exact (no_result_any_name _ _ _ E).
  - pose proof (benign_record data n1) as B. rewrite E in B. cbn [benign] in B.
    congruence.
Qed.

Lemma fetch_absent_run (drug_name : string) (s : St World) :
  fst (fetch_drug_data (JStr drug_name) s) = Ok None <->
  match fst (requests_get (search_url (Py.upper drug_name)) (world s)) with
  | inl _ => True
  | inr resp =>
      read_label resp (JStr drug_name) = Ok None
      \/ exists e, read_label resp (JStr drug_name) = Raise e
                   /\ is_class RequestException e = true
  end.
Proof.
  rewrite fetch_drug_data_run. cbv zeta.
  destruct (fst (requests_get _ (world s))) as [msg|resp]; [easy|].
  destruct (read_label resp (JStr drug_name)) as [[rec|]|e] eqn:R; cbn [fst].
  - split; [discriminate|]. intros [E|(e & E & _)]; discriminate E.
  - split; auto.
  - destruct (is_class RequestException e) eqn:C; cbn [fst].
    + split; eauto.
    + split; [discriminate|]. intros [E|(e' & [= <-] & C')]; congruence.
Qed.

(** X7.  One request per fetch.  Fetching a drug by name sends exactly one
    GET, to the search URL built from the upper-cased name, whatever the
    outcome; there is no second try. *)
Theorem fetch_sends_one_request (drug_name : string) (s : St World) :
  trace (snd (fetch_drug_data (JStr drug_name) s))
  = (trace s ++ [EvGet (search_url (Py.upper drug_name))])%list.
Proof.
  rewrite fetch_drug_data_run. cbv zeta.
  destruct (fst (requests_get _ (world s))) as [msg|resp]; [reflexivity|].
  destruct (read_label resp (JStr drug_name)) as [r|e]; [reflexivity|].
  destruct (is_class RequestException e); reflexivity.
Qed.

(** X8.  The lookup is case-insensitive.  Two names that differ only in the
    case of their letters send the same request, leave the world in the
    same state, and are absent together. *)
Theorem fetch_ignores_case (n1 n2 : string) (s : St World) :
  Py.upper n1 = Py.upper n2 ->
  snd (fetch_drug_data (JStr n1) s) = snd (fetch_drug_data (JStr n2) s)
  /\ (fst (fetch_drug_data (JStr n1) s) = Ok None
      <-> fst (fetch_drug_data (JStr n2) s) = Ok None).
Proof.
  intros U. split.
  - rewrite !fetch_drug_data_run. cbv zeta. rewrite U.
    destruct (fst (requests_get _ (world s))) as [msg|resp]; [reflexivity|].
    destruct (read_label resp (JStr n1)) as [r1|e1],
             (read_label resp (JStr n2)) as [r2|e2]; cbn [snd];
      repeat match goal with
        | |- context [is_class RequestException ?e] =>
            destruct (is_class RequestException e)
        end; reflexivity.
  - rewrite !fetch_absent_run, U.
    destruct (fst (requests_get _ (world s))) as [msg|resp]; [easy|].
    split; apply read_label_absent.
Qed.

(** X9.  Failures of the lookup are absorbed.  A transport exception, a 4xx
    or 5xx status, and a body that is not JSON all make the fetch return
    absent instead of raising. *)
Theorem fetch_failures_are_absent (drug_name : string) (s : St World) :
  (forall msg,
      fst (requests_get (search_url (Py.upper drug_name)) (world s)) = inl msg ->
      fst (fetch_drug_data (JStr drug_name) s) = Ok None)
  /\ (forall resp,
        fst (requests_get (search_url (Py.upper drug_name)) (world s))
        = inr resp ->
        (400 <= status_code resp < 600)%Z
        \/ (exists msg, json_loads (text resp) = inl msg) ->
        fst (fetch_drug_data (JStr drug_name) s) = Ok None).
Proof.
  split.
  - intros msg G. apply fetch_absent_run. now rewrite G.
  - intros resp G C. apply fetch_absent_run. rewrite G. right.
    unfold read_label, raise_for_status.
    destruct C as [[Lo Hi]|(msg & L)].
    + apply Z.leb_le in Lo. apply Z.ltb_lt in Hi. rewrite Lo, Hi. cbn.
      eauto.
    + destruct (_ && _)%bool; cbn [rbind]; [eauto|].
      unfold response_json. rewrite L. cbn. eauto.
Qed.
End FetcherMore.

(** ** What the analyzer does to the world *)

Lemma gets_app (a b : list event) : gets (a ++ b) = (gets a ++ gets b)%list.
Proof.
  induction a as [|[u|p|d] a IH]; cbn; [reflexivity| |assumption..].
  now rewrite IH.
Qed.

Lemma calls_app (a b : list event) :
  List.length (filter is_generate (a ++ b))
  = (List.length (filter is_generate a)
     + List.length (filter is_generate b))%nat.
Proof. now rewrite filter_app, length_app. Qed.

Section AnalyzerMore.
Context `{Runtime} {World : Type} `{Services World}.

Lemma analyze_events (profile_text : string) (drug : DrugRecord)
    (s s' : St World) (r : result json) :
  analyze_with_llm profile_text drug s = (r, s') ->
  exists evs,
    trace s' = (trace s ++ evs)%list
    /\ gets evs = []
    /\ (1 <= List.length (filter is_generate evs) <= 3)%nat
    /\ (0 <= total_sleep evs <= 7)%Z
    /\ Forall (fun e => e = EvGenerate (user_prompt profile_text drug)
                        \/ exists d, e = EvSleep d) evs.
Proof.
  unfold analyze_with_llm, max_retries.
  destruct (retry_loop_run 2 1 (user_prompt profile_text drug) s)
    as (k & sk & a & sk' & Hk & R & A & Hr).
  pose proof (retried_trace _ _ _ _ _ R) as Tk.
  pose proof (attempt_trace _ _ _ _ A) as Ta.
  assert (Hk3 : k = 0%nat \/ k = 1%nat \/ k = 2%nat) by lia.
  assert (E : retry_loop 3 1 (user_prompt profile_text drug) s
              = (r, s') ->
              s' = sk' \/ (k = 2%nat /\ s' = snd (sleep 4 sk'))).
  { destruct a as [v|e].
    - rewrite Hr. intros [= <- <-]. now left.
    - destruct (retryable e).
      + destruct Hr as [-> Hr]. rewrite Hr. intros [= <- <-]. now right.
      + rewrite Hr. intros [= <- <-]. now left. }
  intros L. destruct (E L) as [->|[-> ->]].
  - eexists. rewrite Ta, Tk, <- app_assoc. split; [reflexivity|].
    destruct Hk3 as [-> | [-> | ->]]; cbn;
      (split; [reflexivity|]); (split; [lia|]); (split; [lia|]);
      repeat first
        [ apply Forall_nil
        | apply Forall_cons;
          [first [left; reflexivity | right; eexists; reflexivity]|] ].
  - eexists. cbn [snd sleep log trace].
    rewrite Ta, Tk, <- !app_assoc. split; [reflexivity|].
    cbn. (split; [reflexivity|]); (split; [lia|]); (split; [lia|]).
    repeat first
      [ apply Forall_nil
      | apply Forall_cons;
        [first [left; reflexivity | right; eexists; reflexivity]|] ].
Qed.

(** X10.  The footprint of one analysis.  Whatever the model does, the
    analyzer makes between one and three model calls, all with the same
    prompt, sleeps at most 7 time units in total, and never touches the
    lookup service. *)
Theorem analyze_footprint (profile_text : string) (drug : DrugRecord)
    (s : St World) :
  exists evs,
    trace (snd (analyze_with_llm profile_text drug s)) = (trace s ++ evs)%list
    /\ gets evs = []
    /\ (1 <= List.length (filter is_generate evs) <= 3)%nat
    /\ (0 <= total_sleep evs <= 7)%Z
    /\ Forall (fun e => e = EvGenerate (user_prompt profile_text drug)
                        \/ exists d, e = EvSleep d) evs.
Proof.
  destruct (analyze_with_llm profile_text drug s) as [r s'] eqn:A.
  exact (analyze_events _ _ _ _ _ A).
Qed.
End AnalyzerMore.

(** ** What the handlers do to the world, and when they refuse *)

Section HandlersMore.
Context `{Runtime} {World : Type} `{Services World}.

Lemma fetch_trace (drug_name : string) (s s' : St World)
    (r : result (option DrugRecord)) :
  fetch_drug_data (JStr drug_name) s = (r, s') ->
  trace s' = (trace s ++ [EvGet (search_url (Py.upper drug_name))])%list.
Proof.
  rewrite fetch_drug_data_run. cbv zeta.
  destruct (fst (requests_get _ (world s))) as [msg|resp];
    [now intros [= <- <-]|].
  destruct (read_label resp (JStr drug_name)) as [r0|e];
    [now intros [= <- <-]|].
  destruct (is_class RequestException e); now intros [= <- <-].
Qed.

Lemma batch_report_events (profile_text : string) (d : drug_def)
    (s s' : St World) (r : result json) :
  batch_report profile_text d s = (r, s') ->
  exists evs,
    trace s' = (trace s ++ evs)%list
    /\ gets evs = [search_url (Py.upper (name d))]
    /\ (List.length (filter is_generate evs) <= 3)%nat.
Proof.
  unfold batch_report, bind, ret.
  destruct (fetch_drug_data (JStr (name d)) s) as [[[rec|]|e] s1] eqn:F;
    pose proof (fetch_trace _ _ _ _ F) as T.
  - destruct (analyze_with_llm profile_text rec s1) as [a s2] eqn:A.
    destruct (analyze_events _ _ _ _ _ A) as (evs & Te & G & C & _).
    intros E.
    assert (s' = s2) as -> by (destruct a; now injection E).
    eexists. rewrite Te, T, <- app_assoc. split; [reflexivity|].
    cbn. rewrite G. split; [reflexivity | lia].
  - intros [= <- <-]. eexists. split; [exact T|]. cbn. split; [reflexivity|lia].
  - intros [= <- <-]. eexists. split; [exact T|]. cbn. split; [reflexivity|lia].
Qed.

Lemma report_loop_events (profile_text : string) (drugs : list drug_def)
    (acc all : list json) (s s' : St World) :
  report_loop profile_text drugs acc s = (Ok all, s') ->
  exists evs,
    trace s' = (trace s ++ evs)%list
    /\ gets evs = map (fun d => search_url (Py.upper (name d))) drugs
    /\ (List.length (filter is_generate evs) <= 3 * List.length drugs)%nat.
Proof.
  revert acc s. induction drugs as [|d drugs IH]; intros acc s; cbn [report_loop].
  - unfold ret. intros [= <- <-]. exists []. rewrite app_nil_r. cbn.
    repeat split; lia.
  - unfold bind at 1.
    destruct (batch_report profile_text d s) as [[r|e] s1] eqn:B;
      [|discriminate].
    intros L. destruct (batch_report_events _ _ _ _ _ B) as (e1 & T1 & G1 & C1).
    destruct (IH _ _ L) as (e2 & T2 & G2 & C2).
    exists (e1 ++ e2)%list. rewrite T2, T1, <- app_assoc.
    split; [reflexivity|]. rewrite gets_app, calls_app, G1, G2.
    cbn [map app List.length]. split; [reflexivity | lia].
Qed.

(** X11.  The footprint of a batch.  A batch that answers 200 has looked up
    the five catalog entries, each once and in catalog order, and has made
    at most fifteen model calls. *)
Theorem generate_report_footprint (body : json) (s s' : St World)
    (reports : json) :
  generate_report body s = ((200%Z, reports), s') ->
  exists evs,
    trace s' = (trace s ++ evs)%list
    /\ gets evs = catalog_urls
    /\ (List.length (filter is_generate evs) <= 15)%nat.
Proof.
  intros E. apply generate_report_200 in E as (_ & t & all & _ & L & _).
  destruct (report_loop_events _ _ _ _ _ _ L) as (evs & T & G & C).
  exists evs. split; [exact T|]. split; [exact G|]. exact C.
Qed.

Lemma report_loop_app (profile_text : string) (pre post : list drug_def)
    (acc : list json) (s : St World) :
  report_loop profile_text (pre ++ post) acc s
  = match report_loop profile_text pre acc s with
    | (Ok all, s1) => report_loop profile_text post all s1
    | (Raise e, s1) => (Raise e, s1)
    end.
Proof.
  revert acc s. induction pre as [|d pre IH]; intros acc s; [reflexivity|].
  cbn [app report_loop]. unfold bind.
  destruct (batch_report profile_text d s) as [[r|e] s1]; [apply IH|reflexivity].
Qed.

(** X12.  An escaping exception ends the batch.  When the fetch of some
    catalog entry raises (a reply of an unexpected shape), the batch
    answers 500 with the message of that exception; the reports already
    built for the entries before it are dropped and the entries after it
    are not looked up. *)
Theorem generate_report_aborts (body : json) (profile_text : string)
    (pre post : list drug_def) (d : drug_def) (done : list json)
    (e : exn) (s s1 s2 : St World) :
  Py.truthy body = true ->
  get_profile_text body = Ok profile_text ->
  COMMON_BP_DRUGS = (pre ++ d :: post)%list ->
  report_loop profile_text pre [] s = (Ok done, s1) ->
  fetch_drug_data (JStr (name d)) s1 = (Raise e, s2) ->
  generate_report body s = ((500%Z, JObj [("error", JStr (exn_str e))]), s2).
Proof.
  intros T P C L F. unfold generate_report, handler. rewrite T. cbn [negb].
  unfold bind at 1, lift. rewrite P. unfold bind at 1.
  rewrite C, report_loop_app, L. cbn [report_loop]. unfold bind at 1.
  unfold batch_report. unfold bind at 1. rewrite F. reflexivity.
Qed.

(** X13.  The batch refuses without calling out.  A falsy body (null, the
    empty object, an empty list or string, zero, false) is answered 400, and
    a truthy body on which the formatter raises is answered 500 with that
    message: a body that is not an object, or whose allergies or meds list
    holds an item that is not a string.  In every case nothing is looked up
    and the world is left as it was. *)
Theorem generate_report_refuses (body : json) (s : St World) :
  (Py.truthy body = false ->
   generate_report body s
   = ((400%Z, JObj [("error", JStr "No patient profile provided")]), s))
  /\ (Py.truthy body = true ->
      (forall kv, body <> JObj kv)
      \/ (exists kv l,
             body = JObj kv
             /\ (Py.assoc "allergies" kv = Some (JArr l)
                 \/ Py.assoc "meds" kv = Some (JArr l))
             /\ Py.strs_of l = None) ->
      exists msg,
        generate_report body s = ((500%Z, JObj [("error", JStr msg)]), s)).
Proof.
  split.
  - intros T. unfold generate_report, handler. now rewrite T.
  - intros T C.
    assert (R : exists e, get_profile_text body = Raise e).
    { destruct C as [N|(kv & l & -> & [E|E] & S)].
      - destruct body; try (now eexists). now elim (N fields).
      - unfold get_profile_text. cbn [Py.get rbind]. rewrite E.
        unfold Py.join. rewrite S. now eexists.
      - unfold get_profile_text. cbn [Py.get rbind]. rewrite E.
        destruct (Py.join ", " _) as [a|e]; cbn [rbind]; [|now eexists].
        unfold Py.join. rewrite S. now eexists. }
    destruct R as (e & R). exists (exn_str e).
    unfold generate_report, handler. rewrite T. cbn [negb].
    unfold bind, lift. now rewrite R.
Qed.

(** X14.  The single-drug handler refuses without calling out.  An object
    without [profile] or without [drugName] is answered 400; a [drugName]
    that is not a string is answered 500.  Nothing is looked up and the
    world is left as it was. *)
Theorem check_single_drug_refuses (kv : list (string * json)) (s : St World) :
  (Py.assoc "profile" kv = None \/ Py.assoc "drugName" kv = None ->
   check_single_drug (JObj kv) s
   = ((400%Z, JObj [("error", JStr "Missing profile or drugName")]), s))
  /\ (forall profile drug_name,
        Py.assoc "profile" kv = Some profile ->
        Py.assoc "drugName" kv = Some drug_name ->
        (forall n, drug_name <> JStr n) ->
        exists msg,
          check_single_drug (JObj kv) s
          = ((500%Z, JObj [("error", JStr msg)]), s)).
Proof.
  rewrite check_single_drug_obj. split.
  - intros [E|E]; rewrite E; [reflexivity|].
    now destruct (Py.assoc "profile" kv).
  - intros profile drug_name Ep Ed N. rewrite Ep, Ed.
    unfold handler, bind, lift.
    destruct (get_profile_text profile) as [t|e]; [|now eexists].
    unfold fetch_drug_data, bind, lift.
    destruct drug_name as [| | |n| |]; try (now eexists). now elim (N n).
Qed.

(** X15.  The single-drug handler always answers a well-typed request.  For
    a patient profile (the empty one included) and a drug name that is a
    string, with a lookup service whose parsed replies are well-formed, the
    answer is 200 with a report. *)
Theorem check_single_drug_answers (kv : list (string * json))
    (profile : json) (drug_name : string) (s : St World) :
  Py.assoc "profile" kv = Some profile ->
  Py.assoc "drugName" kv = Some (JStr drug_name) ->
  is_profile profile = true ->
  lookup_well_formed ->
  exists r s', check_single_drug (JObj kv) s = ((200%Z, r), s').
Proof.
  intros Ep Ed P WF.
  destruct profile as [| | | | |pkv]; try discriminate.
  destruct (get_profile_text_spec pkv P) as (a & m & E & _).
  destruct (fetch_drug_data_total drug_name s WF) as (fetched & s1 & F).
  destruct fetched as [rec|].
  - match type of E with _ = Ok ?t =>
      destruct (analyze_total t rec s1) as (alerts & s' & A) end.
    eexists _, s'. apply check_single_drug_200.
    eexists _, _, _, _, _. cbn [Py.subscript]. rewrite Ep, Ed.
    repeat (split; [first [reflexivity | eassumption]|]).
    cbn [assembled]. eexists. split; [exact A | reflexivity].
  - eexists _, s1. apply check_single_drug_200.
    eexists _, _, _, _, _. cbn [Py.subscript]. rewrite Ep, Ed.
    repeat (split; [first [reflexivity | eassumption]|]).
    cbn [assembled]. split; reflexivity.
Qed.

(** X16.  The names of a report.  A report of the single-drug handler has the
    drug class "Custom Search".  When its data is the empty object it
    echoes the requested name and has the brand name N/A; otherwise its
    generic and brand names are those of its data. *)
Theorem check_single_drug_names (body : json) (s s' : St World) (r : json) :
  check_single_drug body s = ((200%Z, r), s') ->
  Py.subscript r "drugClass" = Ok (JStr "Custom Search")
  /\ exists full,
      Py.subscript r "fullData" = Ok full
      /\ (full = JObj [] ->
          Py.subscript r "genericName" = Py.subscript body "drugName"
          /\ Py.subscript r "brandName" = Ok (JStr "N/A"))
      /\ (full <> JObj [] ->
          Py.subscript r "genericName" = Py.subscript full "genericName"
          /\ Py.subscript r "brandName" = Py.subscript full "brandName").
Proof.
  intros E.
  apply check_single_drug_200 in E as (p & d & t & f & s1 & _ & Ed & _ & _ & As).
  destruct f as [rec|].
  - destruct As as (alerts & _ & ->). split; [reflexivity|].
    eexists. split; [reflexivity|]. split; [discriminate|].
    intros _. split; reflexivity.
  - destruct As as [_ ->]. split; [reflexivity|].
    eexists. split; [reflexivity|]. split.
    + intros _. rewrite Ed. split; reflexivity.
    + intros N. now elim N.
Qed.
End HandlersMore.

(** ** The further properties on the stubs *)

Lemma fetch_ignores_case_witness :
  snd (@fetch_drug_data Stub.R _ Stub.online (JStr "lisinopril")
         (Stub.start []))
  = snd (@fetch_drug_data Stub.R _ Stub.online (JStr "LISINOPRIL")
           (Stub.start []))
  /\ (fst (@fetch_drug_data Stub.R _ Stub.online (JStr "lisinopril")
             (Stub.start [])) = Ok None
      <-> fst (@fetch_drug_data Stub.R _ Stub.online (JStr "LISINOPRIL")
                 (Stub.start [])) = Ok None).
Proof.
  apply (@fetch_ignores_case Stub.R _ Stub.online "lisinopril" "LISINOPRIL").
  reflexivity.
Defined.

Lemma fetch_failures_are_absent_witness :
  fst (@fetch_drug_data Stub.R _ Stub.offline (JStr "Lisinopril")
         (Stub.start [])) = Ok None
  /\ fst (@fetch_drug_data Stub.R _ Stub.unavailable (JStr "Lisinopril")
            (Stub.start [])) = Ok None
  /\ fst (@fetch_drug_data Stub.R _ Stub.garbled (JStr "Lisinopril")
            (Stub.start [])) = Ok None.
Proof.
  split; [|split].
  - destruct (@fetch_failures_are_absent Stub.R _ Stub.offline "Lisinopril"
                (Stub.start [])) as [T _].
    apply (T "Read timed out."). reflexivity.
  - destruct (@fetch_failures_are_absent Stub.R _ Stub.unavailable
                "Lisinopril" (Stub.start [])) as [_ S].
    apply (S {| status_code := 503; text := "Service Unavailable" |});
      [reflexivity | left; cbn; lia].
  - destruct (@fetch_failures_are_absent Stub.R _ Stub.garbled
                "Lisinopril" (Stub.start [])) as [_ S].
    apply (S {| status_code := 200; text := "<html>Bad gateway</html>" |});
      [reflexivity | right; eexists; reflexivity].
Defined.

Lemma generate_report_footprint_witness :
  exists evs,
    trace (snd (@generate_report Stub.R _ Stub.online Stub.profile
                  (Stub.start [inr Stub.info_text])))
    = ([] ++ evs)%list
    /\ gets evs = catalog_urls
    /\ (List.length (filter is_generate evs) <= 15)%nat.
Proof.
  apply (@generate_report_footprint Stub.R _ Stub.online Stub.profile
           (Stub.start [inr Stub.info_text]) _
           (snd (fst (@generate_report Stub.R _ Stub.online Stub.profile
                        (Stub.start [inr Stub.info_text]))))).
  reflexivity.
Defined.

Lemma generate_report_aborts_witness :
  exists msg,
    fst (@generate_report Stub.Rb _ Stub.broken Stub.profile
           (Stub.start [inr Stub.info_text]))
    = (500%Z, JObj [("error", JStr msg)]).
Proof.
  eexists.
  pose proof (@generate_report_aborts Stub.Rb _ Stub.broken Stub.profile
                (block (profile_lines "BP 150/95" "" "penicillin" "N/A"))
                [{| class := "ACE Inhibitor"; name := "Lisinopril" |}]
                [{| class := "Calcium Channel Blocker"; name := "Amlodipine" |};
                 {| class := "Beta-Blocker"; name := "Metoprolol" |};
                 {| class := "Diuretic"; name := "Hydrochlorothiazide" |}]
                {| class := "ARB"; name := "Losartan" |}
                _ _ (Stub.start [inr Stub.info_text]) _ _
                eq_refl eq_refl eq_refl eq_refl eq_refl) as E.
  rewrite E. reflexivity.
Defined.

Lemma generate_report_refuses_witness :
  @generate_report Stub.R _ Stub.online (JArr []) (Stub.start [])
  = ((400%Z, JObj [("error", JStr "No patient profile provided")]),
     Stub.start [])
  /\ (exists msg,
         @generate_report Stub.R _ Stub.online
           (JObj [("allergies", JArr [JNum 7])]) (Stub.start [])
         = ((500%Z, JObj [("error", JStr msg)]), Stub.start []))
  /\ (exists msg,
         @generate_report Stub.R _ Stub.online (JStr "profile")
           (Stub.start [])
         = ((500%Z, JObj [("error", JStr msg)]), Stub.start [])).
Proof.
  split; [|split].
  - apply (@generate_report_refuses Stub.R _ Stub.online (JArr [])).
    reflexivity.
  - apply (@generate_report_refuses Stub.R _ Stub.online
             (JObj [("allergies", JArr [JNum 7])])); [reflexivity|].
    right. exists [("allergies", JArr [JNum 7])], [JNum 7].
    split; [reflexivity|]. split; [left|]; reflexivity.
  - apply (@generate_report_refuses Stub.R _ Stub.online (JStr "profile"));
      [reflexivity|].
    left. discriminate.
Defined.

Lemma check_single_drug_refuses_witness :
  @check_single_drug Stub.R _ Stub.online
    (JObj [("profile", Stub.profile)]) (Stub.start [])
  = ((400%Z, JObj [("error", JStr "Missing profile or drugName")]),
     Stub.start [])
  /\ exists msg,
      @check_single_drug Stub.R _ Stub.online
        (JObj [("profile", Stub.profile); ("drugName", JNum 42)])
        (Stub.start [])
      = ((500%Z, JObj [("error", JStr msg)]), Stub.start []).
Proof.
  split.
  - apply (@check_single_drug_refuses Stub.R _ Stub.online
             [("profile", Stub.profile)]).
    right. reflexivity.
  - destruct (@check_single_drug_refuses Stub.R _ Stub.online
                [("profile", Stub.profile); ("drugName", JNum 42)]
                (Stub.start [])) as [_ N].
    apply (N Stub.profile (JNum 42)); [reflexivity | reflexivity | discriminate].
Defined.

Lemma check_single_drug_answers_witness :
  exists r s',
    @check_single_drug Stub.R _ Stub.online
      (JObj [("profile", JObj []); ("drugName", JStr "Lisinopril")])
      (Stub.start [inr Stub.info_text])
    = ((200%Z, r), s').
Proof.
  apply (@check_single_drug_answers Stub.R _ Stub.online
           [("profile", JObj []); ("drugName", JStr "Lisinopril")]
           (JObj []) "Lisinopril");
    [reflexivity | reflexivity | reflexivity
    | exact StubFacts.online_well_formed].
Defined.

Lemma check_single_drug_names_witness :
  exists r,
    fst (@check_single_drug Stub.R _ Stub.offline (Stub.request "Zestril")
           (Stub.start []))
    = (200%Z, r)
    /\ Py.subscript r "drugClass" = Ok (JStr "Custom Search")
    /\ Py.subscript r "genericName" = Ok (JStr "Zestril")
    /\ Py.subscript r "brandName" = Ok (JStr "N/A").
Proof.
  eexists. split; [reflexivity|].
  destruct (@check_single_drug_names Stub.R _ Stub.offline
              (Stub.request "Zestril") (Stub.start []) _ _ eq_refl)
    as (C & full & F & E & _).
  split; [exact C|]. injection F as <-. exact (E eq_refl).
Defined.
